(** * Modmail: the message router of [main.go]

    A shallow embedding of the Discord modmail bot's [messageCreate] handler
    and of the string helpers it relies on, followed by the properties of the
    routing and ticket lifecycle logic.

    [main.go] holds two revisions of the program.  Both are embedded: module
    [Rev1] is the first (lines 1-154), module [Rev2] the second
    (lines 155-328), the one with the ticket-creation alerts, the reactions
    and the "failed to send" notice. *)

From Stdlib Require Import String Ascii List Bool Arith ZArith Lia.
Import ListNotations.
Local Open Scope string_scope.

(** ** Strings

    A Go string is a sequence of bytes; [string] is the same, one [ascii] per
    byte.  Text outside ASCII is carried as its UTF-8 bytes, all of which are
    128 or more. *)

Definition byte_in (lo hi c : ascii) : bool :=
  ((nat_of_ascii lo <=? nat_of_ascii c) && (nat_of_ascii c <=? nat_of_ascii hi))%nat.

Definition isUpper (c : ascii) : bool := byte_in "A"%char "Z"%char c.
Definition isLower (c : ascii) : bool := byte_in "a"%char "z"%char c.
Definition isDigit (c : ascii) : bool := byte_in "0"%char "9"%char c.

(** The character class [a-zA-Z0-9] of the pattern compiled in
    [messageCreate]. *)
Definition isAlnum (c : ascii) : bool := isLower c || isUpper c || isDigit c.

(** [c < utf8.RuneSelf]. *)
Definition isASCIIbyte (c : ascii) : bool := (nat_of_ascii c <? 128)%nat.

Fixpoint string_forallb (p : ascii -> bool) (s : string) : bool :=
  match s with
  | EmptyString => true
  | String c s' => p c && string_forallb p s'
  end.

Fixpoint string_map (f : ascii -> ascii) (s : string) : string :=
  match s with
  | EmptyString => EmptyString
  | String c s' => String (f c) (string_map f s')
  end.

Fixpoint string_filter (p : ascii -> bool) (s : string) : string :=
  match s with
  | EmptyString => EmptyString
  | String c s' => if p c then String c (string_filter p s') else string_filter p s'
  end.

(** [c += 'a' - 'A'] on an upper-case byte. *)
Definition lowerByte (c : ascii) : ascii :=
  if isUpper c then ascii_of_nat (nat_of_ascii c + 32) else c.

(** [strings.HasPrefix]. *)
Fixpoint HasPrefix (s prefix : string) {struct prefix} : bool :=
  match prefix with
  | EmptyString => true
  | String p prefix' =>
      match s with
      | EmptyString => false
      | String c s' => Ascii.eqb c p && HasPrefix s' prefix'
      end
  end.

Fixpoint string_drop (n : nat) (s : string) : string :=
  match n, s with
  | O, _ => s
  | S n', String _ s' => string_drop n' s'
  | S _, EmptyString => EmptyString
  end.

(** [strings.TrimPrefix]: [s[len(prefix):]] when [s] starts with [prefix],
    [s] itself otherwise. *)
Definition TrimPrefix (s prefix : string) : string :=
  if HasPrefix s prefix then string_drop (String.length prefix) s else s.

(** [strings.Contains]: [substr] occurs in [s] at some offset. *)
Fixpoint Contains (s substr : string) : bool :=
  HasPrefix s substr ||
  match s with
  | EmptyString => false
  | String _ s' => Contains s' substr
  end.

(** [regexp.ReplaceAllString] for the pattern [[^a-zA-Z0-9]+]: every maximal
    run of bytes outside the class is replaced by one copy of [repl].  The
    pattern is matched on runes, but a rune outside ASCII is a run of bytes
    that are all outside the class, so runs of runes and runs of bytes
    coincide.  [inRun] tells that the preceding byte belonged to a match.
    [repl] is copied as it is: Go expands [$] in a replacement, so the model
    is for replacements without [$]; the handler passes the empty string. *)
Fixpoint replaceRuns (inRun : bool) (src repl : string) : string :=
  match src with
  | EmptyString => EmptyString
  | String c src' =>
      if isAlnum c then String c (replaceRuns false src' repl)
      else if inRun then replaceRuns true src' repl
      else repl ++ replaceRuns true src' repl
  end.

Definition ReplaceAllString (src repl : string) : string :=
  replaceRuns false src repl.

(** ** Data of the chat platform (package [discordgo]) and of the store

    Only the fields the router reads or writes are kept.  Each record lives in
    a module of its own so that the Go field names can be used as they are. *)

Module User.
(** [AvatarURL] stands for the value of the method call [u.AvatarURL("")],
    which the library computes from the avatar hash. *)
Record t := mk { ID : string; Username : string; AvatarURL : string }.

(** [func (u *User) Mention() string]. *)
Definition Mention (u : t) : string := "<@" ++ ID u ++ ">".
End User.

Module Channel.
Record t := mk {
  ID : string;
  GuildID : string;
  ParentID : string;
  Name : string;
  Topic : string
}.
End Channel.

Module Message.
Record t := mk { ID : string }.
End Message.

Module Attachment.
Record t := mk { URL : string }.
End Attachment.

(** [discordgo.MessageCreate], the inbound event.  An empty [GuildID] marks a
    direct message. *)
Module MessageCreate.
Record t := mk {
  ID : string;
  ChannelID : string;
  GuildID : string;
  Author : User.t;
  Content : string;
  Attachments : list Attachment.t
}.
End MessageCreate.

Module MessageEmbed.
Record author := mkAuthor { Name : string; IconURL : string }.
(** [Author] and [Image] are pointers in Go: [None] is nil.  [Timestamp] is
    empty unless set. *)
Record t := mk {
  Title : string;
  Description : string;
  Color : Z;
  Timestamp : string;
  Author : option author;
  Image : option string
}.
End MessageEmbed.

(** [discordgo.GuildChannelCreateData]; the channel type is always
    [ChannelTypeGuildText]. *)
Module GuildChannelCreateData.
Record t := mk { Name : string; ParentID : string; Topic : string }.
End GuildChannelCreateData.

(** [type ModmailLog struct]; [ID] is left at its zero value by the program
    and filled in by the store. *)
Module ModmailLog.
Record t := mk {
  UserID : string;
  Content : string;
  HasFile : bool;
  Timestamp : Z;
  Sender : string
}.
End ModmailLog.

(** ** The session

    The gateway client is an external collaborator.  A [Session] gives, for
    every request whose answer the router looks at, the answer the client
    returns.  A Go result [(p, err)] with a pointer [p] is an [option]: [None]
    is the failed request, for which discordgo returns a nil pointer together
    with the error.  [GuildChannels] returns the slice alone because the
    router drops its error; a failed listing is the empty slice. *)
Module Session.
Record t := mk {
  StateUserID : string;                                    (* s.State.User.ID *)
  StateChannel : string -> option Channel.t;               (* s.State.Channel *)
  Channel : string -> option Channel.t;                    (* s.Channel *)
  GuildChannels : string -> list Channel.t;
  GuildChannelCreateComplex :
    string -> GuildChannelCreateData.t -> option Channel.t;
  ChannelMessageSendEmbed : string -> MessageEmbed.t -> option Message.t;
  UserChannelCreate : string -> option Channel.t
}.
End Session.

(** ** Effects

    What a run of the handler asks the platform and the store to do, in the
    order of the requests.  Lookups ([State.Channel], [Channel],
    [GuildChannels]) change nothing and are not recorded. *)
Inductive Effect :=
| DoGuildChannelCreateComplex (guildID : string) (data : GuildChannelCreateData.t)
| DoChannelMessageSendEmbed (channelID : string) (embed : MessageEmbed.t)
| DoChannelMessageSend (channelID content : string)
| DoMessageReactionAdd (channelID messageID emoji : string)
| DoChannelDelete (channelID : string)
| DoUserChannelCreate (recipientID : string)
| DoInsertOne (entry : ModmailLog.t).

(** A computation of the handler: the requests made so far and either a value
    or [None] when the goroutine has panicked on a nil pointer. *)
Definition M (A : Type) : Type := (list Effect * option A)%type.

Definition ret {A} (a : A) : M A := ([], Some a).

Definition panic {A} : M A := ([], None).

Definition bind {A B} (c : M A) (k : A -> M B) : M B :=
  match c with
  | (t, Some a) => let '(t', r) := k a in ((t ++ t')%list, r)
  | (t, None) => (t, None)
  end.

Definition request {A} (e : Effect) (answer : A) : M A := ([e], Some answer).

(** Field access through a pointer that may be nil. *)
Definition deref {A} (p : option A) : M A :=
  match p with
  | Some a => ret a
  | None => panic
  end.

Definition trace {A} (c : M A) : list Effect := fst c.
Definition returned {A} (c : M A) : option A := snd c.

Declare Scope go_scope.
Delimit Scope go_scope with go.
Notation "x <- c ;; k" := (bind c (fun x => k))
  (at level 100, c at next level, right associativity) : go_scope.
Notation "c ;; k" := (bind c (fun _ => k))
  (at level 100, right associativity) : go_scope.

Definition isInsert (e : Effect) : bool :=
  match e with DoInsertOne _ => true | _ => false end.

Definition isCreate (e : Effect) : bool :=
  match e with DoGuildChannelCreateComplex _ _ => true | _ => false end.

Definition count (p : Effect -> bool) (t : list Effect) : nat :=
  List.length (List.filter p t).

(** ** Library calls made by the handler *)

Definition isASCII (s : string) : bool := string_forallb isASCIIbyte s.

(** [strings.ToLower]: a string of ASCII bytes is lowered byte by byte;
    any other string goes through [strings.Map(unicode.ToLower, s)], whose
    case tables are the library's and are taken as [unicodeToLower]. *)
Definition ToLower (unicodeToLower : string -> string) (s : string) : string :=
  if isASCII s then string_map lowerByte s else unicodeToLower s.

Definition GuildChannelCreateComplex (s : Session.t) (guildID : string)
    (data : GuildChannelCreateData.t) : M (option Channel.t) :=
  request (DoGuildChannelCreateComplex guildID data)
          (Session.GuildChannelCreateComplex s guildID data).

Definition ChannelMessageSendEmbed (s : Session.t) (channelID : string)
    (embed : MessageEmbed.t) : M (option Message.t) :=
  request (DoChannelMessageSendEmbed channelID embed)
          (Session.ChannelMessageSendEmbed s channelID embed).

Definition ChannelMessageSend (channelID content : string) : M unit :=
  request (DoChannelMessageSend channelID content) tt.

Definition MessageReactionAdd (channelID messageID emoji : string) : M unit :=
  request (DoMessageReactionAdd channelID messageID emoji) tt.

Definition ChannelDelete (channelID : string) : M unit :=
  request (DoChannelDelete channelID) tt.

Definition UserChannelCreate (s : Session.t) (recipientID : string)
    : M (option Channel.t) :=
  request (DoUserChannelCreate recipientID) (Session.UserChannelCreate s recipientID).

(** ** Pieces of [messageCreate] that both revisions share word for word *)

(** [reg, _ := regexp.Compile("[^a-zA-Z0-9]+"); cleanName :=
    strings.ToLower(reg.ReplaceAllString(m.Author.Username, ""))]. *)
Definition cleanName (unicodeToLower : string -> string) (username : string)
    : string :=
  ToLower unicodeToLower (ReplaceAllString username "").

(** [channelName := fmt.Sprintf("ticket-%s", cleanName)]. *)
Definition channelName (unicodeToLower : string -> string) (username : string)
    : string :=
  "ticket-" ++ cleanName unicodeToLower username.

(** [for _, ch := range channels { if strings.Contains(ch.Topic, m.Author.ID)
    { targetChannel = ch; break } }]. *)
Fixpoint scanChannels (channels : list Channel.t) (authorID : string)
    : option Channel.t :=
  match channels with
  | [] => None
  | ch :: rest =>
      if Contains (Channel.Topic ch) authorID then Some ch
      else scanChannels rest authorID
  end.

(** [len(m.Attachments) > 0]. *)
Definition hasAttachments (m : MessageCreate.t) : bool :=
  (0 <? List.length (MessageCreate.Attachments m))%nat.

(** [if len(m.Attachments) > 0 { embed.Image = &MessageEmbedImage{URL:
    m.Attachments[0].URL} }]. *)
Definition embedImage (m : MessageCreate.t) : option string :=
  match MessageCreate.Attachments m with
  | a :: _ => Some (Attachment.URL a)
  | [] => None
  end.

(** The embed that carries a user's direct message into the ticket channel. *)
Definition userEmbed (m : MessageCreate.t) : MessageEmbed.t :=
  let author := MessageCreate.Author m in
  {| MessageEmbed.Title := "";
     MessageEmbed.Description := MessageCreate.Content m;
     MessageEmbed.Color := 0x2ecc71%Z;
     MessageEmbed.Timestamp := "";
     MessageEmbed.Author :=
       Some {| MessageEmbed.Name := User.Username author;
               MessageEmbed.IconURL := User.AvatarURL author |};
     MessageEmbed.Image := embedImage m |}.

(** The embed that carries a staff message to the user. *)
Definition staffEmbed (m : MessageCreate.t) : MessageEmbed.t :=
  {| MessageEmbed.Title := "💬 Staff Response";
     MessageEmbed.Description := MessageCreate.Content m;
     MessageEmbed.Color := 0x3498db%Z;
     MessageEmbed.Timestamp := "";
     MessageEmbed.Author := None;
     MessageEmbed.Image := embedImage m |}.

(** The notice posted into a ticket channel that was just created. *)
Definition newTicketEmbed (author : User.t) : MessageEmbed.t :=
  {| MessageEmbed.Title := "🆕 New Ticket";
     MessageEmbed.Description := "User: " ++ User.Mention author;
     MessageEmbed.Color := 0x3498db%Z;
     MessageEmbed.Timestamp := "";
     MessageEmbed.Author := None;
     MessageEmbed.Image := None |}.

(** [userID := ""; if strings.HasPrefix(ch.Topic, "Modmail ID: ") { userID =
    strings.TrimPrefix(ch.Topic, "Modmail ID: ") }]. *)
Definition topicUserID (topic : string) : string :=
  if HasPrefix topic "Modmail ID: " then TrimPrefix topic "Modmail ID: " else "".

(** [func logToDB(uid, content, sender string, hasFile bool)]; [now] is
    [time.Now()].  The result of [InsertOne] is dropped. *)
Definition logToDB (now : Z) (uid content sender : string) (hasFile : bool)
    : M unit :=
  let entry := {| ModmailLog.UserID := uid;
                  ModmailLog.Content := content;
                  ModmailLog.HasFile := hasFile;
                  ModmailLog.Timestamp := now;
                  ModmailLog.Sender := sender |} in
  request (DoInsertOne entry) tt.

Local Open Scope go_scope.

(** ** First revision, [main.go] lines 1-154 *)
Module Rev1.
Section Handler.
(** Package-level variables read from the environment, the clock, and the
    library's case mapping. *)
Variables GuildID CategoryID : string.
Variable Now : Z.
Variable unicodeToLower : string -> string.

Definition messageCreate (s : Session.t) (m : MessageCreate.t) : M unit :=
  let author := MessageCreate.Author m in
  if User.ID author =? Session.StateUserID s then ret tt else
  if MessageCreate.GuildID m =? "" then
    (* 1. USER -> STAFF (Incoming DM) *)
    let channelName := channelName unicodeToLower (User.Username author) in
    let channels := Session.GuildChannels s GuildID in
    targetChannel <-
      match scanChannels channels (User.ID author) with
      | Some ch => ret (Some ch)
      | None =>
          (targetChannel <-
             GuildChannelCreateComplex s GuildID
               {| GuildChannelCreateData.Name := channelName;
                  GuildChannelCreateData.ParentID := CategoryID;
                  GuildChannelCreateData.Topic := "Modmail ID: " ++ User.ID author |} ;;
           ch <- deref targetChannel ;;
           ChannelMessageSendEmbed s (Channel.ID ch) (newTicketEmbed author) ;;
           ret targetChannel)
      end ;;
    let embed := userEmbed m in
    ch <- deref targetChannel ;;
    ChannelMessageSendEmbed s (Channel.ID ch) embed ;;
    logToDB Now (User.ID author) (MessageCreate.Content m) "user" (hasAttachments m)
  else
    (* 2. STAFF -> USER *)
    match Session.Channel s (MessageCreate.ChannelID m) with
    | None => ret tt
    | Some ch =>
        if negb (Channel.GuildID ch =? GuildID)
           || negb (HasPrefix (Channel.Name ch) "ticket-") then ret tt else
        let userID := topicUserID (Channel.Topic ch) in
        if userID =? "" then ret tt else
        if ToLower unicodeToLower (MessageCreate.Content m) =? "!close" then
          ChannelDelete (MessageCreate.ChannelID m) ;;
          dm <- UserChannelCreate s userID ;;
          dm <- deref dm ;;
          ChannelMessageSend (Channel.ID dm) "🔒 Your ticket has been closed."
        else
          dm <- UserChannelCreate s userID ;;
          match dm with
          | None => ret tt
          | Some dm =>
              let embed := staffEmbed m in
              sent <- ChannelMessageSendEmbed s (Channel.ID dm) embed ;;
              match sent with
              | Some _ =>
                  (MessageReactionAdd (MessageCreate.ChannelID m)
                                      (MessageCreate.ID m) "✅" ;;
                   logToDB Now userID (MessageCreate.Content m) "staff"
                           (hasAttachments m))
              | None => ret tt
              end
          end
    end.
End Handler.
End Rev1.

(** ** Second revision, [main.go] lines 155-328 *)
Module Rev2.
Section Handler.
Variables GuildID CategoryID : string.
Variable Now : Z.
(** [t.Format(time.RFC3339)]. *)
Variable RFC3339 : Z -> string.
Variable unicodeToLower : string -> string.

(** The acknowledgment sent back to the user when the ticket is opened. *)
Definition ticketCreatedEmbed : MessageEmbed.t :=
  {| MessageEmbed.Title := "🎫 Ticket Created";
     MessageEmbed.Description :=
       "Your message has been sent to the staff. Please wait for a response.";
     MessageEmbed.Color := 0x2ecc71%Z;
     MessageEmbed.Timestamp := RFC3339 Now;
     MessageEmbed.Author := None;
     MessageEmbed.Image := None |}.

(** [ch, err := s.State.Channel(m.ChannelID); if err != nil { ch, _ =
    s.Channel(m.ChannelID) }]. *)
Definition resolveChannel (s : Session.t) (channelID : string)
    : option Channel.t :=
  match Session.StateChannel s channelID with
  | Some ch => Some ch
  | None => Session.Channel s channelID
  end.

Definition messageCreate (s : Session.t) (m : MessageCreate.t) : M unit :=
  let author := MessageCreate.Author m in
  if User.ID author =? Session.StateUserID s then ret tt else
  if MessageCreate.GuildID m =? "" then
    (* 1. USER -> STAFF (Incoming DM) *)
    let channelName := channelName unicodeToLower (User.Username author) in
    let channels := Session.GuildChannels s GuildID in
    targetChannel <-
      match scanChannels channels (User.ID author) with
      | Some ch => ret (Some ch)
      | None =>
          (* First-time ticket creation logic *)
          (targetChannel <-
             GuildChannelCreateComplex s GuildID
               {| GuildChannelCreateData.Name := channelName;
                  GuildChannelCreateData.ParentID := CategoryID;
                  GuildChannelCreateData.Topic := "Modmail ID: " ++ User.ID author |} ;;
           ChannelMessageSendEmbed s (MessageCreate.ChannelID m) ticketCreatedEmbed ;;
           ch <- deref targetChannel ;;
           ChannelMessageSendEmbed s (Channel.ID ch) (newTicketEmbed author) ;;
           ret targetChannel)
      end ;;
    (* Forward message to staff channel *)
    let embed := userEmbed m in
    ch <- deref targetChannel ;;
    staffMsg <- ChannelMessageSendEmbed s (Channel.ID ch) embed ;;
    match staffMsg with
    | Some staffMsg =>
        MessageReactionAdd (Channel.ID ch) (Message.ID staffMsg) "📩"
    | None => ret tt
    end ;;
    logToDB Now (User.ID author) (MessageCreate.Content m) "user" (hasAttachments m)
  else
    (* 2. STAFF -> USER *)
    match resolveChannel s (MessageCreate.ChannelID m) with
    | None => ret tt
    | Some ch =>
        if negb (Channel.ParentID ch =? CategoryID)
           || negb (HasPrefix (Channel.Name ch) "ticket-") then ret tt else
        let userID := topicUserID (Channel.Topic ch) in
        if userID =? "" then ret tt else
        if ToLower unicodeToLower (MessageCreate.Content m) =? "!close" then
          ChannelDelete (MessageCreate.ChannelID m) ;;
          dm <- UserChannelCreate s userID ;;
          dm <- deref dm ;;
          ChannelMessageSend (Channel.ID dm) "🔒 Your ticket has been closed."
        else
          (* Forward to user *)
          dm <- UserChannelCreate s userID ;;
          match dm with
          | None => ret tt
          | Some dm =>
              let embed := staffEmbed m in
              sent <- ChannelMessageSendEmbed s (Channel.ID dm) embed ;;
              match sent with
              | Some _ =>
                  (MessageReactionAdd (MessageCreate.ChannelID m)
                                      (MessageCreate.ID m) "✅" ;;
                   logToDB Now userID (MessageCreate.Content m) "staff"
                           (hasAttachments m))
              | None =>
                  ChannelMessageSend (MessageCreate.ChannelID m)
                    "❌ Failed to send DM (DMs might be closed)."
              end
          end
    end.
End Handler.
End Rev2.

(** ** The canonical channel name as the specification words it *)

(** The display name with every character outside [A-Za-z0-9] removed and
    the remainder lower-cased, after the prefix [ticket-]. *)
Definition canonicalName (displayName : string) : string :=
  "ticket-" ++ string_map lowerByte (string_filter isAlnum displayName).

(** ** Reading a trace *)

(** A send that relays a user's direct message: the embed attributed to its
    author.  The notices the bot posts carry no author. *)
Definition isForward (e : Effect) : bool :=
  match e with
  | DoChannelMessageSendEmbed _ embed =>
      match MessageEmbed.Author embed with Some _ => true | None => false end
  | _ => false
  end.

(** The closing notice of the [!close] command, sent to any channel. *)
Definition isClosingNotice (e : Effect) : bool :=
  match e with
  | DoChannelMessageSend _ content => content =? "🔒 Your ticket has been closed."
  | _ => false
  end.

(** The topic test of the scan: the ticket channels of a user, as the
    direct-message path sees them. *)
Definition openTicket (userID : string) (ch : Channel.t) : bool :=
  Contains (Channel.Topic ch) userID.

(** The request that opens a ticket for [author]. *)
Definition ticketData (unicodeToLower : string -> string) (CategoryID : string)
    (author : User.t) : GuildChannelCreateData.t :=
  {| GuildChannelCreateData.Name := channelName unicodeToLower (User.Username author);
     GuildChannelCreateData.ParentID := CategoryID;
     GuildChannelCreateData.Topic := "Modmail ID: " ++ User.ID author |}.

(** The log entries of the two directions. *)
Definition userEntry (Now : Z) (m : MessageCreate.t) : ModmailLog.t :=
  {| ModmailLog.UserID := User.ID (MessageCreate.Author m);
     ModmailLog.Content := MessageCreate.Content m;
     ModmailLog.HasFile := hasAttachments m;
     ModmailLog.Timestamp := Now;
     ModmailLog.Sender := "user" |}.

Definition staffEntry (Now : Z) (userID : string) (m : MessageCreate.t)
    : ModmailLog.t :=
  {| ModmailLog.UserID := userID;
     ModmailLog.Content := MessageCreate.Content m;
     ModmailLog.HasFile := hasAttachments m;
     ModmailLog.Timestamp := Now;
     ModmailLog.Sender := "staff" |}.

(** The reaction the second revision adds in the ticket channel once the
    forward has arrived there; nothing when the send failed. *)
Definition forwardAck (s : Session.t) (ch : Channel.t) (m : MessageCreate.t)
    : list Effect :=
  match Session.ChannelMessageSendEmbed s (Channel.ID ch) (userEmbed m) with
  | Some staffMsg =>
      [DoMessageReactionAdd (Channel.ID ch) (Message.ID staffMsg) "📩"]
  | None => []
  end.

(** The channel a staff message must come from in the second revision: found
    by the session, under the ticket category, named [ticket-...]. *)
Definition ticketChannel (CategoryID : string) (s : Session.t)
    (m : MessageCreate.t) (ch : Channel.t) : Prop :=
  Rev2.resolveChannel s (MessageCreate.ChannelID m) = Some ch /\
  Channel.ParentID ch = CategoryID /\
  HasPrefix (Channel.Name ch) "ticket-" = true.

(** The channel a staff message must come from in the first revision: found
    by [s.Channel], in the staff guild, named [ticket-...].  The category is
    not looked at. *)
Definition guildTicketChannel (GuildID : string) (s : Session.t)
    (m : MessageCreate.t) (ch : Channel.t) : Prop :=
  Session.Channel s (MessageCreate.ChannelID m) = Some ch /\
  Channel.GuildID ch = GuildID /\
  HasPrefix (Channel.Name ch) "ticket-" = true.

(** ** The paths through the second revision

    [Rev2Path s m r] lists, path by path, the conditions the handler tests on
    the session [s] and the event [m] and the run [r] that results. *)
Section Paths.
Variables GuildID CategoryID : string.
Variable Now : Z.
Variable RFC3339 : Z -> string.
Variable unicodeToLower : string -> string.
Variable s : Session.t.
Variable m : MessageCreate.t.

Local Notation "'author'" := (MessageCreate.Author m).
Local Notation "'channelID'" := (MessageCreate.ChannelID m).
Local Notation "'channels'" := (Session.GuildChannels s GuildID).
Local Notation "'content'" := (ToLower unicodeToLower (MessageCreate.Content m)).
Local Notation "'ownerOf' ch" := (topicUserID (Channel.Topic ch)) (at level 10).

Inductive Rev2Path : M unit -> Prop :=
| OwnMessage :
    User.ID author = Session.StateUserID s ->
    Rev2Path ([], Some tt)
| DirectReuse ch :
    User.ID author <> Session.StateUserID s ->
    MessageCreate.GuildID m = "" ->
    scanChannels channels (User.ID author) = Some ch ->
    Rev2Path
      ((DoChannelMessageSendEmbed (Channel.ID ch) (userEmbed m)
          :: forwardAck s ch m ++ [DoInsertOne (userEntry Now m)])%list,
       Some tt)
| DirectCreate ch :
    User.ID author <> Session.StateUserID s ->
    MessageCreate.GuildID m = "" ->
    scanChannels channels (User.ID author) = None ->
    Session.GuildChannelCreateComplex s GuildID
      (ticketData unicodeToLower CategoryID author) = Some ch ->
    Rev2Path
      ((DoGuildChannelCreateComplex GuildID
          (ticketData unicodeToLower CategoryID author)
          :: DoChannelMessageSendEmbed channelID (Rev2.ticketCreatedEmbed Now RFC3339)
          :: DoChannelMessageSendEmbed (Channel.ID ch) (newTicketEmbed author)
          :: DoChannelMessageSendEmbed (Channel.ID ch) (userEmbed m)
          :: forwardAck s ch m ++ [DoInsertOne (userEntry Now m)])%list,
       Some tt)
| DirectCreateFailed :
    User.ID author <> Session.StateUserID s ->
    MessageCreate.GuildID m = "" ->
    scanChannels channels (User.ID author) = None ->
    Session.GuildChannelCreateComplex s GuildID
      (ticketData unicodeToLower CategoryID author) = None ->
    Rev2Path
      ([DoGuildChannelCreateComplex GuildID
          (ticketData unicodeToLower CategoryID author);
        DoChannelMessageSendEmbed channelID (Rev2.ticketCreatedEmbed Now RFC3339)],
       None)
| NotATicket :
    User.ID author <> Session.StateUserID s ->
    MessageCreate.GuildID m <> "" ->
    (forall ch, ~ ticketChannel CategoryID s m ch) ->
    Rev2Path ([], Some tt)
| NoOwner ch :
    User.ID author <> Session.StateUserID s ->
    MessageCreate.GuildID m <> "" ->
    ticketChannel CategoryID s m ch ->
    ownerOf ch = "" ->
    Rev2Path ([], Some tt)
| Close ch dm :
    User.ID author <> Session.StateUserID s ->
    MessageCreate.GuildID m <> "" ->
    ticketChannel CategoryID s m ch ->
    ownerOf ch <> "" ->
    content = "!close" ->
    Session.UserChannelCreate s (ownerOf ch) = Some dm ->
    Rev2Path
      ([DoChannelDelete channelID;
        DoUserChannelCreate (ownerOf ch);
        DoChannelMessageSend (Channel.ID dm) "🔒 Your ticket has been closed."],
       Some tt)
| CloseNoDM ch :
    User.ID author <> Session.StateUserID s ->
    MessageCreate.GuildID m <> "" ->
    ticketChannel CategoryID s m ch ->
    ownerOf ch <> "" ->
    content = "!close" ->
    Session.UserChannelCreate s (ownerOf ch) = None ->
    Rev2Path ([DoChannelDelete channelID; DoUserChannelCreate (ownerOf ch)], None)
| ReplyNoDM ch :
    User.ID author <> Session.StateUserID s ->
    MessageCreate.GuildID m <> "" ->
    ticketChannel CategoryID s m ch ->
    ownerOf ch <> "" ->
    content <> "!close" ->
    Session.UserChannelCreate s (ownerOf ch) = None ->
    Rev2Path ([DoUserChannelCreate (ownerOf ch)], Some tt)
| ReplySent ch dm sent :
    User.ID author <> Session.StateUserID s ->
    MessageCreate.GuildID m <> "" ->
    ticketChannel CategoryID s m ch ->
    ownerOf ch <> "" ->
    content <> "!close" ->
    Session.UserChannelCreate s (ownerOf ch) = Some dm ->
    Session.ChannelMessageSendEmbed s (Channel.ID dm) (staffEmbed m) = Some sent ->
    Rev2Path
      ([DoUserChannelCreate (ownerOf ch);
        DoChannelMessageSendEmbed (Channel.ID dm) (staffEmbed m);
        DoMessageReactionAdd channelID (MessageCreate.ID m) "✅";
        DoInsertOne (staffEntry Now (ownerOf ch) m)],
       Some tt)
| ReplyFailed ch dm :
    User.ID author <> Session.StateUserID s ->
    MessageCreate.GuildID m <> "" ->
    ticketChannel CategoryID s m ch ->
    ownerOf ch <> "" ->
    content <> "!close" ->
    Session.UserChannelCreate s (ownerOf ch) = Some dm ->
    Session.ChannelMessageSendEmbed s (Channel.ID dm) (staffEmbed m) = None ->
    Rev2Path
      ([DoUserChannelCreate (ownerOf ch);
        DoChannelMessageSendEmbed (Channel.ID dm) (staffEmbed m);
        DoChannelMessageSend channelID "❌ Failed to send DM (DMs might be closed)."],
       Some tt).
End Paths.

(** ** A small deployment to run the handler on

    One guild [G1] with the ticket category [CAT1] and one open ticket, the
    one of [bob].  [eve] has an older, shorter identifier that occurs inside
    [bob]'s, and a display name that cleans to the same channel name. *)
Module Sample.
Definition bob : User.t :=
  User.mk "123456789012345678" "Bob!" "https://cdn.example/avatars/bob.png".
Definition eve : User.t :=
  User.mk "23456789012345678" "b.o.b" "https://cdn.example/avatars/eve.png".
Definition carol : User.t :=
  User.mk "555000111222333444" "~~~" "https://cdn.example/avatars/carol.png".
Definition moderator : User.t :=
  User.mk "900000000000000001" "mod" "https://cdn.example/avatars/mod.png".

Definition bobTicket : Channel.t :=
  Channel.mk "C1" "G1" "CAT1" "ticket-bob" "Modmail ID: 123456789012345678".
(** A ticket channel whose topic was cut back to the bare prefix. *)
Definition bareTicket : Channel.t :=
  Channel.mk "C3" "G1" "CAT1" "ticket-old" "Modmail ID: ".
(** A channel of the guild outside the ticket category. *)
Definition lounge : Channel.t :=
  Channel.mk "C4" "G1" "CAT9" "ticket-lounge" "Modmail ID: 123456789012345678".

Definition cache (channelID : string) : option Channel.t :=
  if channelID =? "C1" then Some bobTicket
  else if channelID =? "C3" then Some bareTicket
  else if channelID =? "C4" then Some lounge
  else None.

Definition created (guildID : string) (data : GuildChannelCreateData.t)
    : option Channel.t :=
  Some (Channel.mk "C2" guildID (GuildChannelCreateData.ParentID data)
          (GuildChannelCreateData.Name data) (GuildChannelCreateData.Topic data)).

Definition dmChannel (recipientID : string) : option Channel.t :=
  Some (Channel.mk ("DM-" ++ recipientID) "" "" "" "").

(** Every request succeeds. *)
Definition live : Session.t :=
  {| Session.StateUserID := "800000000000000008";
     Session.StateChannel := cache;
     Session.Channel := cache;
     Session.GuildChannels := fun g => if g =? "G1" then [bobTicket] else [];
     Session.GuildChannelCreateComplex := created;
     Session.ChannelMessageSendEmbed := fun _ _ => Some (Message.mk "M100");
     Session.UserChannelCreate := dmChannel |}.

(** The same guild when sends, creations and direct-message channels fail. *)
Definition failing : Session.t :=
  {| Session.StateUserID := "800000000000000008";
     Session.StateChannel := cache;
     Session.Channel := cache;
     Session.GuildChannels := fun g => if g =? "G1" then [bobTicket] else [];
     Session.GuildChannelCreateComplex := fun _ _ => None;
     Session.ChannelMessageSendEmbed := fun _ _ => None;
     Session.UserChannelCreate := fun _ => None |}.

(** Direct-message channels open, but nothing can be delivered. *)
Definition undeliverable : Session.t :=
  {| Session.StateUserID := "800000000000000008";
     Session.StateChannel := cache;
     Session.Channel := cache;
     Session.GuildChannels := fun g => if g =? "G1" then [bobTicket] else [];
     Session.GuildChannelCreateComplex := created;
     Session.ChannelMessageSendEmbed := fun _ _ => None;
     Session.UserChannelCreate := dmChannel |}.

Definition direct (author : User.t) (content : string)
    (attachments : list Attachment.t) : MessageCreate.t :=
  MessageCreate.mk "M1" ("DM-" ++ User.ID author) "" author content attachments.

Definition inChannel (channelID content : string)
    (attachments : list Attachment.t) : MessageCreate.t :=
  MessageCreate.mk "M2" channelID "G1" moderator content attachments.

Definition photo : Attachment.t := Attachment.mk "https://cdn.example/photo.png".

Definition now : Z := 1700000000.
Definition rfc3339 (t : Z) : string := "2023-11-14T22:13:20Z".
Definition noUnicode (text : string) : string := text.

Definition rev1 : Session.t -> MessageCreate.t -> M unit :=
  Rev1.messageCreate "G1" "CAT1" now noUnicode.
Definition rev2 : Session.t -> MessageCreate.t -> M unit :=
  Rev2.messageCreate "G1" "CAT1" now rfc3339 noUnicode.
End Sample.

(** ** More of the string library *)

(** [strings.Index] as a cut: the text before and after the first occurrence
    of [sep], [None] when there is none. *)
Fixpoint cut (s sep : string) : option (string * string) :=
  if HasPrefix s sep then Some ("", string_drop (String.length sep) s)
  else
    match s with
    | EmptyString => None
    | String c s' =>
        match cut s' sep with
        | Some (before, after) => Some (String c before, after)
        | None => None
        end
    end.

(** [strings.SplitN(s, sep, n)] for a non-empty [sep] and [n >= 0]: no slice
    for [n = 0]; otherwise at most [n] pieces, the last one the remainder
    left unsplit. *)
Fixpoint SplitN (s sep : string) (n : nat) : list string :=
  match n with
  | O => []
  | S O => [s]
  | S n' =>
      match cut s sep with
      | Some (before, after) => before :: SplitN after sep n'
      | None => [s]
      end
  end.

(** The line feed of the Go escape [\n]. *)
Definition newline : string := String (ascii_of_nat 10) EmptyString.

(** ** What the second revision adds on the direct-message path *)

(** The acknowledgment to the user and the reaction in the ticket channel. *)
Definition isAck (e : Effect) : bool :=
  match e with
  | DoChannelMessageSendEmbed _ embed =>
      MessageEmbed.Title embed =? "🎫 Ticket Created"
  | DoMessageReactionAdd _ _ emoji => emoji =? "📩"
  | _ => false
  end.

(** ** Start-up, [func main] of [main.go]

    The process environment is [getenv].  The three connections that can stop
    the start-up return an error or nil: [Some] carries the error that
    [log.Fatal] prints.  [ServeHealth] is the start of the goroutine that
    serves [GET /] on the given address; [AwaitSignal] is the receive on
    [stop]. *)
Module Boot.
Record t := mk {
  mongoConnect : option string;      (* err of mongo.Connect *)
  mongoPing : option string;         (* err of client.Ping, part_000 only *)
  discordNew : option string;        (* err of discordgo.New *)
  discordOpen : option string        (* err of dg.Open *)
}.
End Boot.

Inductive Step :=
| MongoConnect (uri : string)
| MongoPing
| DiscordNew (authorization : string)
| AddHandler
| DiscordOpen
| ServeHealth (addr : string)
| Println (line : string)
| AwaitSignal
| DiscordClose.

Inductive Exit :=
| Fatal (message : string)
| Returned.

(** [port := os.Getenv("PORT"); if port == "" { port = "10000" }] and the
    address [":"+port]. *)
Definition healthAddr (getenv : string -> string) : string :=
  let port := getenv "PORT" in
  let port := if port =? "" then "10000" else port in
  ":" ++ port.

Module Rev1Main.
Definition main (getenv : string -> string) (b : Boot.t) : list Step * Exit :=
  let Token := getenv "DISCORD_TOKEN" in
  let GuildID := getenv "STAFF_GUILD_ID" in
  let CategoryID := getenv "CATEGORY_ID" in
  let MongoURI := getenv "MONGO_URI" in
  if (Token =? "") || (GuildID =? "") || (CategoryID =? "") || (MongoURI =? "")
  then ([], Fatal "Missing required environment variables.")
  else
    match Boot.mongoConnect b with
    | Some err => ([MongoConnect MongoURI], Fatal err)
    | None =>
        match Boot.discordNew b with
        | Some err =>
            ([MongoConnect MongoURI; DiscordNew ("Bot " ++ Token)], Fatal err)
        | None =>
            match Boot.discordOpen b with
            | Some err =>
                ([MongoConnect MongoURI; DiscordNew ("Bot " ++ Token);
                  AddHandler; DiscordOpen],
                 Fatal err)
            | None =>
                ([MongoConnect MongoURI; DiscordNew ("Bot " ++ Token);
                  AddHandler; DiscordOpen;
                  ServeHealth (healthAddr getenv);
                  Println "Bot is live. Errors fixed.";
                  AwaitSignal],
                 Returned)
            end
        end
    end.
End Rev1Main.

Module Rev2Main.
Definition main (getenv : string -> string) (b : Boot.t) : list Step * Exit :=
  let Token := getenv "DISCORD_TOKEN" in
  let GuildID := getenv "STAFF_GUILD_ID" in
  let CategoryID := getenv "CATEGORY_ID" in
  let MongoURI := getenv "MONGO_URI" in
  if (Token =? "") || (GuildID =? "") || (CategoryID =? "") || (MongoURI =? "")
  then ([], Fatal "Missing environment variables.")
  else
    match Boot.mongoConnect b with
    | Some err => ([MongoConnect MongoURI], Fatal err)
    | None =>
        match Boot.discordNew b with
        | Some err =>
            ([MongoConnect MongoURI; DiscordNew ("Bot " ++ Token)], Fatal err)
        | None =>
            match Boot.discordOpen b with
            | Some err =>
                ([MongoConnect MongoURI; DiscordNew ("Bot " ++ Token);
                  AddHandler; DiscordOpen],
                 Fatal err)
            | None =>
                ([MongoConnect MongoURI; DiscordNew ("Bot " ++ Token);
                  AddHandler; DiscordOpen;
                  ServeHealth (healthAddr getenv);
                  Println "Bot is live. Ticket creation alerts and reactions enabled.";
                  AwaitSignal],
                 Returned)
            end
        end
    end.
End Rev2Main.

(** [func main] of [src/unnamed/part_000]: three settings, a ping of the
    store within ten seconds, and the gateway closed after the signal.
    [log.Fatal] prints its operands side by side. *)
Module Rev0Main.
Definition main (getenv : string -> string) (b : Boot.t) : list Step * Exit :=
  let Token := getenv "DISCORD_TOKEN" in
  let LogChannelID := getenv "LOG_CHANNEL_ID" in
  let MongoURI := getenv "MONGO_URI" in
  if (Token =? "") || (LogChannelID =? "") || (MongoURI =? "")
  then ([], Fatal "Missing environment variables: DISCORD_TOKEN, LOG_CHANNEL_ID, or MONGO_URI")
  else
    match Boot.mongoConnect b with
    | Some err => ([MongoConnect MongoURI], Fatal ("MongoDB Connection Error:" ++ err))
    | None =>
        match Boot.mongoPing b with
        | Some err =>
            ([MongoConnect MongoURI; MongoPing],
             Fatal ("Could not ping MongoDB:" ++ err))
        | None =>
            match Boot.discordNew b with
            | Some err =>
                ([MongoConnect MongoURI; MongoPing;
                  Println "Successfully connected to MongoDB!";
                  DiscordNew ("Bot " ++ Token)],
                 Fatal ("Discord session error:" ++ err))
            | None =>
                match Boot.discordOpen b with
                | Some err =>
                    ([MongoConnect MongoURI; MongoPing;
                      Println "Successfully connected to MongoDB!";
                      DiscordNew ("Bot " ++ Token); AddHandler; DiscordOpen],
                     Fatal ("Discord connection error:" ++ err))
                | None =>
                    ([MongoConnect MongoURI; MongoPing;
                      Println "Successfully connected to MongoDB!";
                      DiscordNew ("Bot " ++ Token); AddHandler; DiscordOpen;
                      ServeHealth (healthAddr getenv);
                      Println "Bot is running. Press CTRL-C to exit.";
                      AwaitSignal; DiscordClose],
                     Returned)
                end
            end
        end
    end.
End Rev0Main.

(** ** The log-channel revision, [src/unnamed/part_000]

    One staff channel receives every direct message; the staff answer with
    [!reply <UserID> <Message>].  The handler never reads through a pointer
    it has not checked, so a run is the list of its requests. *)
Module Rev0.
Record ModmailLog := mkLog {
  UserID : string;
  Username : string;
  Content : string;
  Timestamp : Z;
  Type_ : string                       (* the field [Type] *)
}.

(** The answers of the gateway client that this revision looks at. *)
Record Session := mkSession {
  StateUserID : string;
  UserChannelCreate : string -> option Channel.t;
  ChannelMessageSend : string -> string -> option Message.t
}.

Inductive Effect :=
| DoChannelMessageSend (channelID content : string)
| DoUserChannelCreate (recipientID : string)
| DoInsertOne (entry : ModmailLog).

Section Handler.
Variable LogChannelID : string.
Variable Now : Z.

(** [func logMessage(uid, user, content, msgType string)].  A failed insert
    is printed on the console and has no other consequence. *)
Definition logMessage (uid user content msgType : string) : list Effect :=
  [DoInsertOne {| UserID := uid;
                  Username := user;
                  Content := content;
                  Timestamp := Now;
                  Type_ := msgType |}].

(** [fmt.Sprintf("📩 **New Modmail**\n**From:** %s (`%s`)\n\n%s", ...)]. *)
Definition modmailText (username userID content : string) : string :=
  "📩 **New Modmail**" ++ newline ++ "**From:** " ++ username ++ " (`" ++ userID
  ++ "`)" ++ newline ++ newline ++ content.

Definition messageCreate (s : Session) (m : MessageCreate.t) : list Effect :=
  let author := MessageCreate.Author m in
  if User.ID author =? StateUserID s then [] else
  if MessageCreate.GuildID m =? "" then
    let content :=
      modmailText (User.Username author) (User.ID author) (MessageCreate.Content m) in
    (logMessage (User.ID author) (User.Username author) (MessageCreate.Content m)
       "incoming"
     ++ [DoChannelMessageSend LogChannelID content;
         DoChannelMessageSend (MessageCreate.ChannelID m) "✅ Sent to staff!"])%list
  else
  if (MessageCreate.ChannelID m =? LogChannelID)
     && HasPrefix (MessageCreate.Content m) "!reply " then
    let parts := SplitN (MessageCreate.Content m) " " 3 in
    if (List.length parts <? 3)%nat then
      [DoChannelMessageSend (MessageCreate.ChannelID m)
         "⚠️ Use: `!reply [UserID] [Message]`"]
    else
      let userID := nth 1 parts "" in
      let replyText := nth 2 parts "" in
      match UserChannelCreate s userID with
      | None =>
          [DoUserChannelCreate userID;
           DoChannelMessageSend (MessageCreate.ChannelID m) "❌ User not found."]
      | Some userChannel =>
          match ChannelMessageSend s (Channel.ID userChannel)
                  ("💬 **Staff:** " ++ replyText) with
          | Some _ =>
              (DoUserChannelCreate userID
                 :: DoChannelMessageSend (Channel.ID userChannel)
                      ("💬 **Staff:** " ++ replyText)
                 :: logMessage userID "STAFF" replyText "reply"
                 ++ [DoChannelMessageSend (MessageCreate.ChannelID m)
                       "✅ Reply sent."])%list
          | None =>
              [DoUserChannelCreate userID;
               DoChannelMessageSend (Channel.ID userChannel)
                 ("💬 **Staff:** " ++ replyText)]
          end
      end
  else [].
End Handler.
End Rev0.

(** [s] has no byte [c]. *)
Definition lacks (c : ascii) (s : string) : bool :=
  string_forallb (fun x => negb (Ascii.eqb x c)) s.

(** ** More of the sample deployment *)
Module More.
(** The listing request fails; everything else works. *)
Definition unlisted : Session.t :=
  {| Session.StateUserID := "800000000000000008";
     Session.StateChannel := Sample.cache;
     Session.Channel := Sample.cache;
     Session.GuildChannels := fun _ => [];
     Session.GuildChannelCreateComplex := Sample.created;
     Session.ChannelMessageSendEmbed := fun _ _ => Some (Message.mk "M100");
     Session.UserChannelCreate := Sample.dmChannel |}.

(** A channel of the guild that lies under no category. *)
Definition general : Channel.t :=
  Channel.mk "C5" "G1" "" "ticket-general" "Modmail ID: 123456789012345678".

Definition flat : Session.t :=
  {| Session.StateUserID := "800000000000000008";
     Session.StateChannel := fun _ => Some general;
     Session.Channel := fun _ => Some general;
     Session.GuildChannels := fun _ => [general];
     Session.GuildChannelCreateComplex := Sample.created;
     Session.ChannelMessageSendEmbed := fun _ _ => Some (Message.mk "M100");
     Session.UserChannelCreate := Sample.dmChannel |}.

(** [eve]'s own ticket, and a guild that lists it after [bob]'s. *)
Definition eveTicket : Channel.t :=
  Channel.mk "C6" "G1" "CAT1" "ticket-bob" "Modmail ID: 23456789012345678".

Definition crowded : Session.t :=
  {| Session.StateUserID := "800000000000000008";
     Session.StateChannel := Sample.cache;
     Session.Channel := Sample.cache;
     Session.GuildChannels := fun _ => [Sample.bobTicket; eveTicket];
     Session.GuildChannelCreateComplex := Sample.created;
     Session.ChannelMessageSendEmbed := fun _ _ => Some (Message.mk "M100");
     Session.UserChannelCreate := Sample.dmChannel |}.

(** A complete environment without [PORT]. *)
Definition env (key : string) : string :=
  if key =? "DISCORD_TOKEN" then "token"
  else if key =? "STAFF_GUILD_ID" then "G1"
  else if key =? "CATEGORY_ID" then "CAT1"
  else if key =? "MONGO_URI" then "mongodb://db.example/modmail"
  else "".

Definition ready : Boot.t := Boot.mk None None None None.

(** A complete environment of the log-channel revision. *)
Definition env0 (key : string) : string :=
  if key =? "DISCORD_TOKEN" then "token"
  else if key =? "LOG_CHANNEL_ID" then "LOG"
  else if key =? "MONGO_URI" then "mongodb://db.example/modmail"
  else if key =? "PORT" then "8080"
  else "".

(** The log-channel revision with the staff channel [LOG]. *)
Definition desk : Rev0.Session :=
  Rev0.mkSession "800000000000000008" Sample.dmChannel
    (fun _ _ => Some (Message.mk "M200")).

Definition inLog (content : string) : MessageCreate.t :=
  MessageCreate.mk "M3" "LOG" "G1" Sample.moderator content [].

Definition rev0 : Rev0.Session -> MessageCreate.t -> list Rev0.Effect :=
  Rev0.messageCreate "LOG" Sample.now.
End More.

(** * Properties *)

(** ** Strings *)

Lemma isAlnum_isASCIIbyte c : isAlnum c = true -> isASCIIbyte c = true.
Proof.
  unfold isAlnum, isLower, isUpper, isDigit, byte_in, isASCIIbyte.
  change (nat_of_ascii "a") with 97. change (nat_of_ascii "z") with 122.
  change (nat_of_ascii "A") with 65. change (nat_of_ascii "Z") with 90.
  change (nat_of_ascii "0") with 48. change (nat_of_ascii "9") with 57.
  intros H. apply Nat.ltb_lt.
  repeat (apply orb_true_iff in H; destruct H as [H | H]);
    apply andb_true_iff in H; destruct H as [_ H]; apply Nat.leb_le in H; lia.
Qed.

Lemma replaceRuns_empty b s : replaceRuns b s "" = string_filter isAlnum s.
Proof.
  revert b. induction s as [| c s IH]; intros b; simpl; [reflexivity |].
  destruct (isAlnum c); [now rewrite IH |].
  destruct b; simpl; apply IH.
Qed.

Lemma string_filter_forallb p s : string_forallb p (string_filter p s) = true.
Proof.
  induction s as [| c s IH]; simpl; [reflexivity |].
  destruct (p c) eqn:E; simpl; [rewrite E |]; exact IH.
Qed.

Lemma string_forallb_impl (p q : ascii -> bool) s :
  (forall c, p c = true -> q c = true) ->
  string_forallb p s = true -> string_forallb q s = true.
Proof.
  intros Hpq. induction s as [| c s IH]; simpl; [reflexivity |].
  intros H. apply andb_true_iff in H. destruct H as [Hc Hs].
  now rewrite (Hpq c Hc), IH.
Qed.

Lemma string_filter_none p s :
  string_forallb (fun c => negb (p c)) s = true -> string_filter p s = "".
Proof.
  induction s as [| c s IH]; simpl; [reflexivity |].
  intros H. apply andb_true_iff in H. destruct H as [Hc Hs].
  apply negb_true_iff in Hc. rewrite Hc. now apply IH.
Qed.

(** The name cleaned by the pattern is ASCII, so [ToLower] never reaches the
    Unicode tables on it. *)
Lemma cleanName_eq unicodeToLower username :
  cleanName unicodeToLower username =
  string_map lowerByte (string_filter isAlnum username).
Proof.
  unfold cleanName, ReplaceAllString, ToLower, isASCII.
  rewrite replaceRuns_empty.
  rewrite (string_forallb_impl isAlnum isASCIIbyte _ isAlnum_isASCIIbyte
             (string_filter_forallb isAlnum username)).
  reflexivity.
Qed.

Lemma HasPrefix_app p r : HasPrefix (p ++ r) p = true.
Proof.
  induction p as [| c p IH]; simpl; [reflexivity |].
  now rewrite Ascii.eqb_refl, IH.
Qed.

Lemma HasPrefix_inv s p : HasPrefix s p = true -> exists r, s = p ++ r.
Proof.
  revert s. induction p as [| c p IH]; intros s H; simpl in *.
  - now exists s.
  - destruct s as [| d s]; [discriminate |].
    apply andb_true_iff in H. destruct H as [Hc Hs].
    apply Ascii.eqb_eq in Hc. subst d.
    destruct (IH _ Hs) as [r ->]. now exists r.
Qed.

Lemma string_drop_app p r : string_drop (String.length p) (p ++ r) = r.
Proof. induction p as [| c p IH]; simpl; [now destruct r | exact IH]. Qed.

Lemma TrimPrefix_app p r : TrimPrefix (p ++ r) p = r.
Proof. unfold TrimPrefix. now rewrite HasPrefix_app, string_drop_app. Qed.

Lemma Contains_unfold s sub :
  Contains s sub =
  HasPrefix s sub ||
  match s with EmptyString => false | String _ s' => Contains s' sub end.
Proof. destruct s; reflexivity. Qed.

(** [strings.Contains] is the substring relation. *)
Lemma Contains_iff s sub :
  Contains s sub = true <-> exists a b, s = a ++ sub ++ b.
Proof.
  split.
  - induction s as [| c s IH]; simpl; intros H.
    + rewrite orb_false_r in H. apply HasPrefix_inv in H. destruct H as [r ->].
      now exists "", r.
    + apply orb_true_iff in H. destruct H as [H | H].
      * apply HasPrefix_inv in H. destruct H as [r Hr]. exists "", r. exact Hr.
      * destruct (IH H) as (a & b & ->). now exists (String c a), b.
  - intros (a & b & ->). induction a as [| c a IH]; simpl.
    + rewrite Contains_unfold, HasPrefix_app. reflexivity.
    + rewrite IH. apply orb_true_r.
Qed.

(** The topic written at creation is read back as the owner's identifier. *)
Lemma topicUserID_created userID : topicUserID ("Modmail ID: " ++ userID) = userID.
Proof.
  unfold topicUserID. rewrite HasPrefix_app. apply TrimPrefix_app.
Qed.

Lemma topicUserID_bare : topicUserID "Modmail ID: " = "".
Proof. reflexivity. Qed.

(** ** The scan for an open ticket *)

Lemma scanChannels_Some channels userID ch :
  scanChannels channels userID = Some ch ->
  exists before after,
    channels = (before ++ ch :: after)%list /\
    forallb (fun c => negb (openTicket userID c)) before = true /\
    openTicket userID ch = true.
Proof.
  induction channels as [| c rest IH]; simpl; [discriminate |].
  destruct (Contains (Channel.Topic c) userID) eqn:E; intros H.
  - injection H as <-. now exists [], rest.
  - destruct (IH H) as (before & after & -> & Hb & Hc).
    exists (c :: before), after. simpl. unfold openTicket at 1.
    now rewrite E, Hb.
Qed.

Lemma scanChannels_None channels userID :
  scanChannels channels userID = None <->
  forall c, In c channels -> openTicket userID c = false.
Proof.
  unfold openTicket. induction channels as [| c rest IH]; simpl.
  - split; [intros _ c [] | reflexivity].
  - destruct (Contains (Channel.Topic c) userID) eqn:E.
    + split; [discriminate | intros H]. rewrite (H c) in E; [discriminate | now left].
    + rewrite IH. split.
      * intros H c' [<- | Hin]; [exact E | now apply H].
      * intros H c' Hin. apply H. now right.
Qed.


Ltac run_handler :=
  cbv beta iota zeta delta
    [bind ret panic request deref trace returned
     GuildChannelCreateComplex ChannelMessageSendEmbed ChannelMessageSend
     MessageReactionAdd ChannelDelete UserChannelCreate logToDB forwardAck
     fst snd List.app].

(** ** Runs of the second revision

    One lemma per path through [messageCreate]: the requests it makes, in
    order, and whether it returns. *)
Section Rev2Runs.
Variables GuildID CategoryID : string.
Variable Now : Z.
Variable RFC3339 : Z -> string.
Variable unicodeToLower : string -> string.

Local Notation "'messageCreate'" :=
  (Rev2.messageCreate GuildID CategoryID Now RFC3339 unicodeToLower).
Local Notation "'ticketCreatedEmbed'" := (Rev2.ticketCreatedEmbed Now RFC3339).
Local Notation "'ticketData'" := (ticketData unicodeToLower CategoryID).

Variable s : Session.t.
Variable m : MessageCreate.t.

Local Notation "'author'" := (MessageCreate.Author m).
Local Notation "'channelID'" := (MessageCreate.ChannelID m).

Lemma rev2_own_message :
  User.ID author = Session.StateUserID s -> messageCreate s m = ([], Some tt).
Proof.
  intros H. unfold Rev2.messageCreate. rewrite H, String.eqb_refl.
  reflexivity.
Qed.

Lemma rev2_dm_reuse ch :
  User.ID author <> Session.StateUserID s ->
  MessageCreate.GuildID m = "" ->
  scanChannels (Session.GuildChannels s GuildID) (User.ID author) = Some ch ->
  messageCreate s m =
  ((DoChannelMessageSendEmbed (Channel.ID ch) (userEmbed m)
      :: forwardAck s ch m ++ [DoInsertOne (userEntry Now m)])%list,
   Some tt).
Proof.
  intros Hbot Hdm Hscan. apply String.eqb_neq in Hbot.
  unfold Rev2.messageCreate. rewrite Hbot, Hdm, Hscan.
  run_handler.
  destruct (Session.ChannelMessageSendEmbed s (Channel.ID ch) (userEmbed m));
    reflexivity.
Qed.

Lemma rev2_dm_create ch :
  User.ID author <> Session.StateUserID s ->
  MessageCreate.GuildID m = "" ->
  scanChannels (Session.GuildChannels s GuildID) (User.ID author) = None ->
  Session.GuildChannelCreateComplex s GuildID (ticketData author) = Some ch ->
  messageCreate s m =
  ((DoGuildChannelCreateComplex GuildID (ticketData author)
      :: DoChannelMessageSendEmbed channelID ticketCreatedEmbed
      :: DoChannelMessageSendEmbed (Channel.ID ch) (newTicketEmbed author)
      :: DoChannelMessageSendEmbed (Channel.ID ch) (userEmbed m)
      :: forwardAck s ch m ++ [DoInsertOne (userEntry Now m)])%list,
   Some tt).
Proof.
  intros Hbot Hdm Hscan Hnew. apply String.eqb_neq in Hbot.
  unfold Rev2.messageCreate. rewrite Hbot, Hdm, Hscan.
  run_handler. fold (ticketData author). rewrite Hnew.
  run_handler.
  destruct (Session.ChannelMessageSendEmbed s (Channel.ID ch) (userEmbed m));
    reflexivity.
Qed.

(** A failed creation leaves [targetChannel] nil: the acknowledgment to the
    user is still sent, then [targetChannel.ID] panics. *)
Lemma rev2_dm_create_failed :
  User.ID author <> Session.StateUserID s ->
  MessageCreate.GuildID m = "" ->
  scanChannels (Session.GuildChannels s GuildID) (User.ID author) = None ->
  Session.GuildChannelCreateComplex s GuildID (ticketData author) = None ->
  messageCreate s m =
  ([DoGuildChannelCreateComplex GuildID (ticketData author);
    DoChannelMessageSendEmbed channelID ticketCreatedEmbed],
   None).
Proof.
  intros Hbot Hdm Hscan Hnew. apply String.eqb_neq in Hbot.
  unfold Rev2.messageCreate. rewrite Hbot, Hdm, Hscan.
  run_handler. fold (ticketData author). rewrite Hnew.
  reflexivity.
Qed.

Lemma rev2_guild_rejected :
  MessageCreate.GuildID m <> "" ->
  (forall ch, ~ ticketChannel CategoryID s m ch) ->
  messageCreate s m = ([], Some tt).
Proof.
  intros Hguild Hno. apply String.eqb_neq in Hguild.
  unfold Rev2.messageCreate. rewrite Hguild.
  destruct (User.ID author =? Session.StateUserID s); [reflexivity |].
  destruct (Rev2.resolveChannel s channelID) as [ch |] eqn:Hch; [| reflexivity].
  destruct (Channel.ParentID ch =? CategoryID) eqn:Hp; [| reflexivity].
  destruct (HasPrefix (Channel.Name ch) "ticket-") eqn:Hn; [| reflexivity].
  apply String.eqb_eq in Hp. destruct (Hno ch). now repeat split.
Qed.

Lemma rev2_guild_no_owner ch :
  MessageCreate.GuildID m <> "" ->
  ticketChannel CategoryID s m ch ->
  topicUserID (Channel.Topic ch) = "" ->
  messageCreate s m = ([], Some tt).
Proof.
  intros Hguild (Hch & Hp & Hn) Hid. apply String.eqb_neq in Hguild.
  unfold Rev2.messageCreate. rewrite Hguild, Hch, Hp, Hn, Hid, String.eqb_refl.
  destruct (User.ID author =? Session.StateUserID s); reflexivity.
Qed.

Section InTicket.
Variable ch : Channel.t.
Hypothesis Hbot : User.ID author <> Session.StateUserID s.
Hypothesis Hguild : MessageCreate.GuildID m <> "".
Hypothesis Hticket : ticketChannel CategoryID s m ch.
Hypothesis Howner : topicUserID (Channel.Topic ch) <> "".

Local Notation "'userID'" := (topicUserID (Channel.Topic ch)).

Lemma rev2_in_ticket :
  messageCreate s m =
  if ToLower unicodeToLower (MessageCreate.Content m) =? "!close" then
    (ChannelDelete channelID ;;
     dm <- UserChannelCreate s userID ;;
     dm <- deref dm ;;
     ChannelMessageSend (Channel.ID dm) "🔒 Your ticket has been closed.")%go
  else
    (dm <- UserChannelCreate s userID ;;
     match dm with
     | None => ret tt
     | Some dm =>
         sent <- ChannelMessageSendEmbed s (Channel.ID dm) (staffEmbed m) ;;
         match sent with
         | Some _ =>
             (MessageReactionAdd channelID (MessageCreate.ID m) "✅" ;;
              logToDB Now userID (MessageCreate.Content m) "staff"
                      (hasAttachments m))
         | None =>
             ChannelMessageSend channelID
               "❌ Failed to send DM (DMs might be closed)."
         end
     end)%go.
Proof.
  destruct Hticket as (Hch & Hp & Hn).
  apply String.eqb_neq in Hbot, Hguild, Howner.
  unfold Rev2.messageCreate.
  rewrite Hbot, Hguild, Hch, Hp, Hn, Howner, String.eqb_refl.
  reflexivity.
Qed.

Lemma rev2_close dm :
  ToLower unicodeToLower (MessageCreate.Content m) = "!close" ->
  Session.UserChannelCreate s userID = Some dm ->
  messageCreate s m =
  ([DoChannelDelete channelID;
    DoUserChannelCreate userID;
    DoChannelMessageSend (Channel.ID dm) "🔒 Your ticket has been closed."],
   Some tt).
Proof.
  intros Hclose Hdm. rewrite rev2_in_ticket, Hclose.
  run_handler. rewrite Hdm. reflexivity.
Qed.

(** The error of [UserChannelCreate] is dropped on the close path, so a
    failed request leaves [dm] nil and [dm.ID] panics. *)
Lemma rev2_close_no_dm :
  ToLower unicodeToLower (MessageCreate.Content m) = "!close" ->
  Session.UserChannelCreate s userID = None ->
  messageCreate s m =
  ([DoChannelDelete channelID; DoUserChannelCreate userID], None).
Proof.
  intros Hclose Hdm. rewrite rev2_in_ticket, Hclose.
  run_handler. rewrite Hdm. reflexivity.
Qed.

Lemma rev2_reply_no_dm :
  ToLower unicodeToLower (MessageCreate.Content m) <> "!close" ->
  Session.UserChannelCreate s userID = None ->
  messageCreate s m = ([DoUserChannelCreate userID], Some tt).
Proof.
  intros Hclose Hdm. apply String.eqb_neq in Hclose.
  rewrite rev2_in_ticket, Hclose.
  run_handler. rewrite Hdm. reflexivity.
Qed.

Lemma rev2_reply_sent dm sent :
  ToLower unicodeToLower (MessageCreate.Content m) <> "!close" ->
  Session.UserChannelCreate s userID = Some dm ->
  Session.ChannelMessageSendEmbed s (Channel.ID dm) (staffEmbed m) = Some sent ->
  messageCreate s m =
  ([DoUserChannelCreate userID;
    DoChannelMessageSendEmbed (Channel.ID dm) (staffEmbed m);
    DoMessageReactionAdd channelID (MessageCreate.ID m) "✅";
    DoInsertOne (staffEntry Now userID m)],
   Some tt).
Proof.
  intros Hclose Hdm Hsent. apply String.eqb_neq in Hclose.
  rewrite rev2_in_ticket, Hclose.
  run_handler. rewrite Hdm. run_handler. rewrite Hsent. reflexivity.
Qed.

Lemma rev2_reply_failed dm :
  ToLower unicodeToLower (MessageCreate.Content m) <> "!close" ->
  Session.UserChannelCreate s userID = Some dm ->
  Session.ChannelMessageSendEmbed s (Channel.ID dm) (staffEmbed m) = None ->
  messageCreate s m =
  ([DoUserChannelCreate userID;
    DoChannelMessageSendEmbed (Channel.ID dm) (staffEmbed m);
    DoChannelMessageSend channelID "❌ Failed to send DM (DMs might be closed)."],
   Some tt).
Proof.
  intros Hclose Hdm Hsent. apply String.eqb_neq in Hclose.
  rewrite rev2_in_ticket, Hclose.
  run_handler. rewrite Hdm. run_handler. rewrite Hsent. reflexivity.
Qed.
End InTicket.
End Rev2Runs.

(** ** Every run of the second revision follows one of the paths *)
Section Rev2Cases.
Variables GuildID CategoryID : string.
Variable Now : Z.
Variable RFC3339 : Z -> string.
Variable unicodeToLower : string -> string.

Local Notation "'messageCreate'" :=
  (Rev2.messageCreate GuildID CategoryID Now RFC3339 unicodeToLower).
Local Notation "'Rev2Path'" :=
  (Rev2Path GuildID CategoryID Now RFC3339 unicodeToLower).

Lemma ticketChannel_dec s m :
  {ch | ticketChannel CategoryID s m ch} +
  {forall ch, ~ ticketChannel CategoryID s m ch}.
Proof.
  unfold ticketChannel.
  destruct (Rev2.resolveChannel s (MessageCreate.ChannelID m)) as [ch |] eqn:Hch.
  - destruct (string_dec (Channel.ParentID ch) CategoryID) as [Hp | Hp].
    + destruct (HasPrefix (Channel.Name ch) "ticket-") eqn:Hn.
      * left. now exists ch.
      * right. intros c (Hc & _ & Hcn). congruence.
    + right. intros c (Hc & Hcp & _). congruence.
  - right. intros c (Hc & _). discriminate.
Defined.

Lemma rev2_paths s m : Rev2Path s m (messageCreate s m).
Proof.
  destruct (string_dec (User.ID (MessageCreate.Author m)) (Session.StateUserID s))
    as [Hown | Hbot].
  { rewrite rev2_own_message by exact Hown. now constructor. }
  destruct (string_dec (MessageCreate.GuildID m) "") as [Hdm | Hguild].
  - destruct (scanChannels (Session.GuildChannels s GuildID)
                (User.ID (MessageCreate.Author m))) as [ch |] eqn:Hscan.
    + rewrite (rev2_dm_reuse _ _ _ _ _ _ _ ch) by assumption.
      now apply DirectReuse.
    + destruct (Session.GuildChannelCreateComplex s GuildID
                  (ticketData unicodeToLower CategoryID (MessageCreate.Author m)))
        as [ch |] eqn:Hnew.
      * rewrite (rev2_dm_create _ _ _ _ _ _ _ ch) by assumption.
        now apply DirectCreate.
      * rewrite rev2_dm_create_failed by assumption.
        now apply DirectCreateFailed.
  - destruct (ticketChannel_dec s m) as [[ch Hticket] | Hno].
    2:{ rewrite rev2_guild_rejected by assumption. now apply NotATicket. }
    destruct (string_dec (topicUserID (Channel.Topic ch)) "") as [Hid | Hid].
    { rewrite (rev2_guild_no_owner _ _ _ _ _ _ _ ch) by assumption.
      now apply NoOwner with ch. }
    destruct (string_dec (ToLower unicodeToLower (MessageCreate.Content m)) "!close")
      as [Hclose | Hclose];
      destruct (Session.UserChannelCreate s (topicUserID (Channel.Topic ch)))
        as [dm |] eqn:Hdm.
    + rewrite (rev2_close _ _ _ _ _ _ _ ch Hbot Hguild Hticket Hid dm) by assumption.
      now apply Close.
    + rewrite (rev2_close_no_dm _ _ _ _ _ _ _ ch) by assumption.
      now apply CloseNoDM.
    + destruct (Session.ChannelMessageSendEmbed s (Channel.ID dm) (staffEmbed m))
        as [sent |] eqn:Hsent.
      * rewrite (rev2_reply_sent _ _ _ _ _ _ _ ch Hbot Hguild Hticket Hid dm sent)
          by assumption.
        now apply ReplySent with sent.
      * rewrite (rev2_reply_failed _ _ _ _ _ _ _ ch Hbot Hguild Hticket Hid dm)
          by assumption.
        now apply ReplyFailed.
    + rewrite (rev2_reply_no_dm _ _ _ _ _ _ _ ch) by assumption.
      now apply ReplyNoDM.
Qed.
End Rev2Cases.

(** ** Runs of the first revision

    The direct-message path is the second revision's without the
    acknowledgment to the user and without the reaction; the staff path tests
    the guild of the channel instead of its category and stays silent when
    the reply cannot be delivered. *)
Section Rev1Runs.
Variables GuildID CategoryID : string.
Variable Now : Z.
Variable unicodeToLower : string -> string.

Local Notation "'messageCreate'" :=
  (Rev1.messageCreate GuildID CategoryID Now unicodeToLower).
Local Notation "'ticketData'" := (ticketData unicodeToLower CategoryID).

Variable s : Session.t.
Variable m : MessageCreate.t.

Local Notation "'author'" := (MessageCreate.Author m).
Local Notation "'channelID'" := (MessageCreate.ChannelID m).

Lemma rev1_dm_reuse ch :
  User.ID author <> Session.StateUserID s ->
  MessageCreate.GuildID m = "" ->
  scanChannels (Session.GuildChannels s GuildID) (User.ID author) = Some ch ->
  messageCreate s m =
  ([DoChannelMessageSendEmbed (Channel.ID ch) (userEmbed m);
    DoInsertOne (userEntry Now m)],
   Some tt).
Proof.
  intros Hbot Hdm Hscan. apply String.eqb_neq in Hbot.
  unfold Rev1.messageCreate. rewrite Hbot, Hdm, Hscan. reflexivity.
Qed.

Lemma rev1_dm_create ch :
  User.ID author <> Session.StateUserID s ->
  MessageCreate.GuildID m = "" ->
  scanChannels (Session.GuildChannels s GuildID) (User.ID author) = None ->
  Session.GuildChannelCreateComplex s GuildID (ticketData author) = Some ch ->
  messageCreate s m =
  ([DoGuildChannelCreateComplex GuildID (ticketData author);
    DoChannelMessageSendEmbed (Channel.ID ch) (newTicketEmbed author);
    DoChannelMessageSendEmbed (Channel.ID ch) (userEmbed m);
    DoInsertOne (userEntry Now m)],
   Some tt).
Proof.
  intros Hbot Hdm Hscan Hnew. apply String.eqb_neq in Hbot.
  unfold Rev1.messageCreate. rewrite Hbot, Hdm, Hscan.
  run_handler. fold (ticketData author). rewrite Hnew. reflexivity.
Qed.

Lemma rev1_dm_create_failed :
  User.ID author <> Session.StateUserID s ->
  MessageCreate.GuildID m = "" ->
  scanChannels (Session.GuildChannels s GuildID) (User.ID author) = None ->
  Session.GuildChannelCreateComplex s GuildID (ticketData author) = None ->
  messageCreate s m =
  ([DoGuildChannelCreateComplex GuildID (ticketData author)], None).
Proof.
  intros Hbot Hdm Hscan Hnew. apply String.eqb_neq in Hbot.
  unfold Rev1.messageCreate. rewrite Hbot, Hdm, Hscan.
  run_handler. fold (ticketData author). rewrite Hnew. reflexivity.
Qed.

Lemma rev1_guild_rejected :
  MessageCreate.GuildID m <> "" ->
  (forall ch, ~ guildTicketChannel GuildID s m ch) ->
  messageCreate s m = ([], Some tt).
Proof.
  intros Hguild Hno. apply String.eqb_neq in Hguild.
  unfold Rev1.messageCreate. rewrite Hguild.
  destruct (User.ID author =? Session.StateUserID s); [reflexivity |].
  destruct (Session.Channel s channelID) as [ch |] eqn:Hch; [| reflexivity].
  destruct (Channel.GuildID ch =? GuildID) eqn:Hg; [| reflexivity].
  destruct (HasPrefix (Channel.Name ch) "ticket-") eqn:Hn; [| reflexivity].
  apply String.eqb_eq in Hg. destruct (Hno ch). now repeat split.
Qed.

Section InGuildTicket.
Variable ch : Channel.t.
Hypothesis Hbot : User.ID author <> Session.StateUserID s.
Hypothesis Hguild : MessageCreate.GuildID m <> "".
Hypothesis Hticket : guildTicketChannel GuildID s m ch.

Local Notation "'userID'" := (topicUserID (Channel.Topic ch)).

Lemma rev1_no_owner : userID = "" -> messageCreate s m = ([], Some tt).
Proof.
  intros Hid. destruct Hticket as (Hch & Hg & Hn).
  apply String.eqb_neq in Hbot, Hguild.
  unfold Rev1.messageCreate.
  rewrite Hbot, Hguild, Hch, Hg, Hn, Hid, String.eqb_refl. reflexivity.
Qed.

Hypothesis Howner : userID <> "".

Lemma rev1_close dm :
  ToLower unicodeToLower (MessageCreate.Content m) = "!close" ->
  Session.UserChannelCreate s userID = Some dm ->
  messageCreate s m =
  ([DoChannelDelete channelID;
    DoUserChannelCreate userID;
    DoChannelMessageSend (Channel.ID dm) "🔒 Your ticket has been closed."],
   Some tt).
Proof.
  intros Hclose Hdm. destruct Hticket as (Hch & Hg & Hn).
  apply String.eqb_neq in Hbot, Hguild, Howner.
  unfold Rev1.messageCreate.
  rewrite Hbot, Hguild, Hch, Hg, Hn, Howner, Hclose, String.eqb_refl.
  run_handler. rewrite Hdm. reflexivity.
Qed.

Lemma rev1_close_no_dm :
  ToLower unicodeToLower (MessageCreate.Content m) = "!close" ->
  Session.UserChannelCreate s userID = None ->
  messageCreate s m =
  ([DoChannelDelete channelID; DoUserChannelCreate userID], None).
Proof.
  intros Hclose Hdm. destruct Hticket as (Hch & Hg & Hn).
  apply String.eqb_neq in Hbot, Hguild, Howner.
  unfold Rev1.messageCreate.
  rewrite Hbot, Hguild, Hch, Hg, Hn, Howner, Hclose, String.eqb_refl.
  run_handler. rewrite Hdm. reflexivity.
Qed.

Lemma rev1_reply_sent dm sent :
  ToLower unicodeToLower (MessageCreate.Content m) <> "!close" ->
  Session.UserChannelCreate s userID = Some dm ->
  Session.ChannelMessageSendEmbed s (Channel.ID dm) (staffEmbed m) = Some sent ->
  messageCreate s m =
  ([DoUserChannelCreate userID;
    DoChannelMessageSendEmbed (Channel.ID dm) (staffEmbed m);
    DoMessageReactionAdd channelID (MessageCreate.ID m) "✅";
    DoInsertOne (staffEntry Now userID m)],
   Some tt).
Proof.
  intros Hclose Hdm Hsent. destruct Hticket as (Hch & Hg & Hn).
  apply String.eqb_neq in Hbot, Hguild, Howner, Hclose.
  unfold Rev1.messageCreate.
  rewrite Hbot, Hguild, Hch, Hg, Hn, Howner, Hclose, String.eqb_refl.
  run_handler. rewrite Hdm. run_handler. rewrite Hsent. reflexivity.
Qed.

(** No notice to the staff here: the [else] branch came with the second
    revision. *)
Lemma rev1_reply_failed dm :
  ToLower unicodeToLower (MessageCreate.Content m) <> "!close" ->
  Session.UserChannelCreate s userID = Some dm ->
  Session.ChannelMessageSendEmbed s (Channel.ID dm) (staffEmbed m) = None ->
  messageCreate s m =
  ([DoUserChannelCreate userID;
    DoChannelMessageSendEmbed (Channel.ID dm) (staffEmbed m)],
   Some tt).
Proof.
  intros Hclose Hdm Hsent. destruct Hticket as (Hch & Hg & Hn).
  apply String.eqb_neq in Hbot, Hguild, Howner, Hclose.
  unfold Rev1.messageCreate.
  rewrite Hbot, Hguild, Hch, Hg, Hn, Howner, Hclose, String.eqb_refl.
  run_handler. rewrite Hdm. run_handler. rewrite Hsent. reflexivity.
Qed.
End InGuildTicket.
End Rev1Runs.

(** The first revision relays a staff message from a channel of the guild
    that lies outside the ticket category; the second drops it. *)
Example rev1_ignores_category :
  Channel.ParentID Sample.lounge <> "CAT1" /\
  Sample.rev1 Sample.live (Sample.inChannel "C4" "hello" []) =
  ([DoUserChannelCreate "123456789012345678";
    DoChannelMessageSendEmbed "DM-123456789012345678"
      (staffEmbed (Sample.inChannel "C4" "hello" []));
    DoMessageReactionAdd "C4" "M2" "✅";
    DoInsertOne
      (staffEntry Sample.now "123456789012345678"
         (Sample.inChannel "C4" "hello" []))],
   Some tt) /\
  Sample.rev2 Sample.live (Sample.inChannel "C4" "hello" []) = ([], Some tt).
Proof. repeat split; [discriminate | reflexivity..]. Qed.

(** ** Reading the traces of the paths *)

Lemma forwardAck_filter (p : Effect -> bool) s ch m :
  (forall channelID messageID emoji,
     p (DoMessageReactionAdd channelID messageID emoji) = false) ->
  filter p (forwardAck s ch m) = [].
Proof.
  intros Hp. unfold forwardAck.
  destruct (Session.ChannelMessageSendEmbed s (Channel.ID ch) (userEmbed m));
    simpl; [now rewrite Hp | reflexivity].
Qed.

Lemma forwardAck_no_insert s ch m entry :
  ~ In (DoInsertOne entry) (forwardAck s ch m).
Proof.
  unfold forwardAck.
  destruct (Session.ChannelMessageSendEmbed s (Channel.ID ch) (userEmbed m));
    simpl; intuition discriminate.
Qed.

Lemma forwardAck_failed s ch m :
  Session.ChannelMessageSendEmbed s (Channel.ID ch) (userEmbed m) = None ->
  forwardAck s ch m = [].
Proof. intros H. unfold forwardAck. now rewrite H. Qed.

Lemma hasAttachments_iff m :
  hasAttachments m = true <-> 1 <= List.length (MessageCreate.Attachments m).
Proof. unfold hasAttachments. rewrite Nat.ltb_lt. lia. Qed.

Ltac read_trace :=
  cbn [trace returned fst snd filter isForward isInsert isCreate isClosingNotice
       userEmbed newTicketEmbed Rev2.ticketCreatedEmbed MessageEmbed.Author];
  rewrite ?filter_app, ?forwardAck_filter by reflexivity;
  cbn [filter isForward isInsert isCreate isClosingNotice List.app].

(** ** Properties of the router (second revision) *)
Section Router.
Variables GuildID CategoryID : string.
Variable Now : Z.
Variable RFC3339 : Z -> string.
Variable unicodeToLower : string -> string.

Local Notation "'messageCreate'" :=
  (Rev2.messageCreate GuildID CategoryID Now RFC3339 unicodeToLower).


(** C2. A direct message from a non-bot author either finds its ticket channel
    in the listing (no creation request) or obtains one from a single creation
    request; in both cases exactly one forward goes to that channel, exactly
    one log entry is written and the handler returns.  When the creation
    request fails the run is abandoned, by the panic on the nil channel, with
    no forward and no log entry. *)
Theorem C2_direct_message_outcome (s : Session.t) (m : MessageCreate.t) :
  User.ID (MessageCreate.Author m) <> Session.StateUserID s ->
  MessageCreate.GuildID m = "" ->
  (exists ch,
     (scanChannels (Session.GuildChannels s GuildID)
        (User.ID (MessageCreate.Author m)) = Some ch /\
      filter isCreate (trace (messageCreate s m)) = []
      \/
      scanChannels (Session.GuildChannels s GuildID)
        (User.ID (MessageCreate.Author m)) = None /\
      Session.GuildChannelCreateComplex s GuildID
        (ticketData unicodeToLower CategoryID (MessageCreate.Author m)) = Some ch /\
      filter isCreate (trace (messageCreate s m)) =
        [DoGuildChannelCreateComplex GuildID
           (ticketData unicodeToLower CategoryID (MessageCreate.Author m))]) /\
     filter isForward (trace (messageCreate s m)) =
       [DoChannelMessageSendEmbed (Channel.ID ch) (userEmbed m)] /\
     filter isInsert (trace (messageCreate s m)) = [DoInsertOne (userEntry Now m)] /\
     returned (messageCreate s m) = Some tt)
  \/
  (scanChannels (Session.GuildChannels s GuildID)
     (User.ID (MessageCreate.Author m)) = None /\
   Session.GuildChannelCreateComplex s GuildID
     (ticketData unicodeToLower CategoryID (MessageCreate.Author m)) = None /\
   filter isCreate (trace (messageCreate s m)) =
     [DoGuildChannelCreateComplex GuildID
        (ticketData unicodeToLower CategoryID (MessageCreate.Author m))] /\
   filter isForward (trace (messageCreate s m)) = [] /\
   filter isInsert (trace (messageCreate s m)) = [] /\
   returned (messageCreate s m) = None).
Proof.
  intros Hbot Hdm.
  destruct (scanChannels (Session.GuildChannels s GuildID)
              (User.ID (MessageCreate.Author m))) as [ch |] eqn:Hscan.
  - left. exists ch.
    rewrite (rev2_dm_reuse _ _ _ _ _ _ _ ch Hbot Hdm Hscan).
    repeat split; try (read_trace; reflexivity).
    left. split; [reflexivity | read_trace; reflexivity].
  - destruct (Session.GuildChannelCreateComplex s GuildID
                (ticketData unicodeToLower CategoryID (MessageCreate.Author m)))
      as [ch |] eqn:Hnew.
    + left. exists ch.
      rewrite (rev2_dm_create _ _ _ _ _ _ _ ch Hbot Hdm Hscan Hnew).
      repeat split; try (read_trace; reflexivity).
      right. repeat split; read_trace; reflexivity.
    + right.
      rewrite (rev2_dm_create_failed _ _ _ _ _ _ _ Hbot Hdm Hscan Hnew).
      repeat split; read_trace; reflexivity.
Qed.

(** X26. A staff message whose lowered text is [!close], sent in a ticket
    channel whose topic names an owner, makes the handler request the
    deletion of that channel first, then the owner's direct-message channel,
    and write no log entry; when that channel is obtained, the run is exactly
    the deletion, the opening of that channel and one closing notice sent
    into it. *)
Theorem close_command_run (s : Session.t) (m : MessageCreate.t) (ch : Channel.t) :
  User.ID (MessageCreate.Author m) <> Session.StateUserID s ->
  MessageCreate.GuildID m <> "" ->
  ticketChannel CategoryID s m ch ->
  topicUserID (Channel.Topic ch) <> "" ->
  ToLower unicodeToLower (MessageCreate.Content m) = "!close" ->
  (exists rest,
     trace (messageCreate s m) =
     DoChannelDelete (MessageCreate.ChannelID m)
       :: DoUserChannelCreate (topicUserID (Channel.Topic ch)) :: rest) /\
  filter isInsert (trace (messageCreate s m)) = [] /\
  (forall dm,
     Session.UserChannelCreate s (topicUserID (Channel.Topic ch)) = Some dm ->
     messageCreate s m =
     ([DoChannelDelete (MessageCreate.ChannelID m);
       DoUserChannelCreate (topicUserID (Channel.Topic ch));
       DoChannelMessageSend (Channel.ID dm) "🔒 Your ticket has been closed."],
      Some tt)).
Proof.
  intros Hbot Hguild Hticket Howner Hclose.
  destruct (Session.UserChannelCreate s (topicUserID (Channel.Topic ch)))
    as [dm |] eqn:Hdm.
  - rewrite (rev2_close _ _ _ _ _ _ _ ch Hbot Hguild Hticket Howner dm Hclose Hdm).
    repeat split.
    + now eexists.
    + intros dm' Hdm'. now injection Hdm' as <-.
  - rewrite (rev2_close_no_dm _ _ _ _ _ _ _ ch Hbot Hguild Hticket Howner Hclose Hdm).
    repeat split.
    + now eexists.
    + discriminate.
Qed.

(** C5. A guild message makes the handler do nothing unless its channel is
    found, lies under the configured ticket category and has a name that
    starts with [ticket-]. *)
Theorem C5_outside_ticket_channels (s : Session.t) (m : MessageCreate.t) :
  MessageCreate.GuildID m <> "" ->
  (Rev2.resolveChannel s (MessageCreate.ChannelID m) = None \/
   exists ch,
     Rev2.resolveChannel s (MessageCreate.ChannelID m) = Some ch /\
     (Channel.ParentID ch <> CategoryID \/
      HasPrefix (Channel.Name ch) "ticket-" = false)) ->
  messageCreate s m = ([], Some tt).
Proof.
  intros Hguild Hout. apply rev2_guild_rejected; [exact Hguild |].
  intros c (Hc & Hp & Hn).
  destruct Hout as [Hnone | (ch & Hch & [Hparent | Hname])]; congruence.
Qed.

(** C6. A staff message that is not the close command, sent in a ticket
    channel with an owner whose direct-message channel is obtained: when the
    send succeeds the handler reacts to the staff message with the check mark
    and writes one log entry with sender [staff]; when the send fails it
    posts the failure notice into the ticket channel and writes no log
    entry. *)
Theorem C6_staff_reply (s : Session.t) (m : MessageCreate.t)
    (ch dm : Channel.t) :
  User.ID (MessageCreate.Author m) <> Session.StateUserID s ->
  MessageCreate.GuildID m <> "" ->
  ticketChannel CategoryID s m ch ->
  topicUserID (Channel.Topic ch) <> "" ->
  ToLower unicodeToLower (MessageCreate.Content m) <> "!close" ->
  Session.UserChannelCreate s (topicUserID (Channel.Topic ch)) = Some dm ->
  (forall sent,
     Session.ChannelMessageSendEmbed s (Channel.ID dm) (staffEmbed m) = Some sent ->
     messageCreate s m =
     ([DoUserChannelCreate (topicUserID (Channel.Topic ch));
       DoChannelMessageSendEmbed (Channel.ID dm) (staffEmbed m);
       DoMessageReactionAdd (MessageCreate.ChannelID m) (MessageCreate.ID m) "✅";
       DoInsertOne
         {| ModmailLog.UserID := topicUserID (Channel.Topic ch);
            ModmailLog.Content := MessageCreate.Content m;
            ModmailLog.HasFile := hasAttachments m;
            ModmailLog.Timestamp := Now;
            ModmailLog.Sender := "staff" |}],
      Some tt)) /\
  (Session.ChannelMessageSendEmbed s (Channel.ID dm) (staffEmbed m) = None ->
   messageCreate s m =
   ([DoUserChannelCreate (topicUserID (Channel.Topic ch));
     DoChannelMessageSendEmbed (Channel.ID dm) (staffEmbed m);
     DoChannelMessageSend (MessageCreate.ChannelID m)
       "❌ Failed to send DM (DMs might be closed)."],
    Some tt)).
Proof.
  intros Hbot Hguild Hticket Howner Hclose Hdm. split.
  - intros sent Hsent.
    exact (rev2_reply_sent _ _ _ _ _ _ _ ch Hbot Hguild Hticket Howner dm sent
             Hclose Hdm Hsent).
  - intros Hsent.
    exact (rev2_reply_failed _ _ _ _ _ _ _ ch Hbot Hguild Hticket Howner dm
             Hclose Hdm Hsent).
Qed.

(** C7. Every log entry the handler writes for a message has [HasFile] true
    exactly when the message carries at least one attachment, has sender
    [user] for a direct message and [staff] for a guild message, and holds
    the message text. *)
Theorem C7_log_entry_fields (s : Session.t) (m : MessageCreate.t)
    (entry : ModmailLog.t) :
  In (DoInsertOne entry) (trace (messageCreate s m)) ->
  (ModmailLog.HasFile entry = true <->
   1 <= List.length (MessageCreate.Attachments m)) /\
  ModmailLog.Sender entry =
    (if MessageCreate.GuildID m =? "" then "user" else "staff") /\
  ModmailLog.Content entry = MessageCreate.Content m.
Proof.
  intros Hin. rewrite <- hasAttachments_iff.
  remember (messageCreate s m) as run eqn:Hrun.
  pose proof (rev2_paths GuildID CategoryID Now RFC3339 unicodeToLower s m) as Hpath.
  rewrite <- Hrun in Hpath.
  destruct Hpath as
    [ Hown | ch Hbot Hdm Hscan | ch Hbot Hdm Hscan Hnew | Hbot Hdm Hscan Hnew
    | Hbot Hguild Hno | ch Hbot Hguild Hticket Hid
    | ch dm Hbot Hguild Hticket Hid Hclose Hdm
    | ch Hbot Hguild Hticket Hid Hclose Hdm
    | ch Hbot Hguild Hticket Hid Hclose Hdm
    | ch dm sent Hbot Hguild Hticket Hid Hclose Hdm Hsent
    | ch dm Hbot Hguild Hticket Hid Hclose Hdm ];
    cbn [trace fst] in Hin;
    try apply String.eqb_neq in Hguild; try rewrite Hguild;
    try rewrite Hdm; cbn [String.eqb].
  all: repeat
         match goal with
         | H : In _ [] |- _ => destruct H
         | H : In _ (_ :: _) |- _ => destruct H as [H | H]; [try discriminate H |]
         | H : In _ (_ ++ _)%list |- _ => apply in_app_or in H; destruct H as [H | H]
         | H : In (DoInsertOne _) (forwardAck _ _ _) |- _ =>
             destruct (forwardAck_no_insert _ _ _ _ H)
         | H : DoInsertOne _ = DoInsertOne _ |- _ => injection H as <-
         end.
  all: cbn [userEntry staffEntry ModmailLog.HasFile ModmailLog.Sender
            ModmailLog.Content];
    split; [reflexivity | split; reflexivity].
Qed.

(** C8. The channel name computed from a display name is [ticket-] followed
    by the display name with every character outside [A-Za-z0-9] removed and
    the rest lower-cased; a display name without any such character gives
    exactly [ticket-]; and this is the name under which the handler asks for
    a new ticket channel. *)
Theorem C8_channel_name (displayName : string) :
  channelName unicodeToLower displayName = canonicalName displayName /\
  (string_forallb (fun c => negb (isAlnum c)) displayName = true ->
   channelName unicodeToLower displayName = "ticket-") /\
  (forall s m,
     User.Username (MessageCreate.Author m) = displayName ->
     forall guildID data,
       In (DoGuildChannelCreateComplex guildID data) (trace (messageCreate s m)) ->
       GuildChannelCreateData.Name data = canonicalName displayName).
Proof.
  assert (Hname : channelName unicodeToLower displayName = canonicalName displayName).
  { unfold channelName, canonicalName. now rewrite cleanName_eq. }
  split; [exact Hname | split].
  - intros Hnone. rewrite Hname. unfold canonicalName.
    now rewrite string_filter_none.
  - intros s m Hdisplay guildID data Hin.
    remember (messageCreate s m) as run eqn:Hrun.
    pose proof (rev2_paths GuildID CategoryID Now RFC3339 unicodeToLower s m) as Hpath.
    rewrite <- Hrun in Hpath.
    destruct Hpath; cbn [trace fst] in Hin; try contradiction.
    all: repeat
           match goal with
           | H : In _ [] |- _ => destruct H
           | H : In _ (_ :: _) |- _ => destruct H as [H | H]; [try discriminate H |]
           | H : In _ (_ ++ _)%list |- _ => apply in_app_or in H; destruct H as [H | H]
           | H : In (DoGuildChannelCreateComplex _ _) (forwardAck ?s ?c ?m) |- _ =>
               unfold forwardAck in H;
               destruct (Session.ChannelMessageSendEmbed s (Channel.ID c) (userEmbed m))
           | H : DoGuildChannelCreateComplex _ _ = DoGuildChannelCreateComplex _ _ |- _ =>
               injection H as <- <-
           end.
    all: cbn [ticketData GuildChannelCreateData.Name]; rewrite Hdisplay; exact Hname.
Qed.

(** C9. A guild message in a channel that passes the ticket-channel checks
    but whose topic is exactly [Modmail ID: ] makes the handler do nothing:
    no deletion, no forward, no log entry. *)
Theorem C9_bare_topic (s : Session.t) (m : MessageCreate.t) (ch : Channel.t) :
  MessageCreate.GuildID m <> "" ->
  ticketChannel CategoryID s m ch ->
  Channel.Topic ch = "Modmail ID: " ->
  messageCreate s m = ([], Some tt).
Proof.
  intros Hguild Hticket Htopic.
  apply (rev2_guild_no_owner _ _ _ _ _ _ _ ch Hguild Hticket).
  rewrite Htopic. apply topicUserID_bare.
Qed.

(** C10. A direct message from a non-bot author whose ticket channel was
    found or created ends with the log entry of sender [user], whatever the
    forward into the ticket channel returned; when that send failed the
    entry follows the failed send directly. *)
Theorem C10_user_entry_unconditional (s : Session.t) (m : MessageCreate.t)
    (ch : Channel.t) :
  User.ID (MessageCreate.Author m) <> Session.StateUserID s ->
  MessageCreate.GuildID m = "" ->
  (scanChannels (Session.GuildChannels s GuildID)
     (User.ID (MessageCreate.Author m)) = Some ch
   \/
   scanChannels (Session.GuildChannels s GuildID)
     (User.ID (MessageCreate.Author m)) = None /\
   Session.GuildChannelCreateComplex s GuildID
     (ticketData unicodeToLower CategoryID (MessageCreate.Author m)) = Some ch) ->
  returned (messageCreate s m) = Some tt /\
  (exists before,
     trace (messageCreate s m) =
     (before ++
      [DoInsertOne
         {| ModmailLog.UserID := User.ID (MessageCreate.Author m);
            ModmailLog.Content := MessageCreate.Content m;
            ModmailLog.HasFile := hasAttachments m;
            ModmailLog.Timestamp := Now;
            ModmailLog.Sender := "user" |}])%list) /\
  (Session.ChannelMessageSendEmbed s (Channel.ID ch) (userEmbed m) = None ->
   exists before,
     trace (messageCreate s m) =
     (before ++
      [DoChannelMessageSendEmbed (Channel.ID ch) (userEmbed m);
       DoInsertOne
         {| ModmailLog.UserID := User.ID (MessageCreate.Author m);
            ModmailLog.Content := MessageCreate.Content m;
            ModmailLog.HasFile := hasAttachments m;
            ModmailLog.Timestamp := Now;
            ModmailLog.Sender := "user" |}])%list).
Proof.
  intros Hbot Hdm [Hscan | [Hscan Hnew]].
  - rewrite (rev2_dm_reuse _ _ _ _ _ _ _ ch Hbot Hdm Hscan).
    cbn [trace returned fst snd]. repeat split.
    + exists (DoChannelMessageSendEmbed (Channel.ID ch) (userEmbed m)
                :: forwardAck s ch m). reflexivity.
    + intros Hfail. rewrite (forwardAck_failed _ _ _ Hfail). now exists [].
  - rewrite (rev2_dm_create _ _ _ _ _ _ _ ch Hbot Hdm Hscan Hnew).
    cbn [trace returned fst snd]. repeat split.
    + eexists (_ :: _ :: _ :: _ :: forwardAck s ch m). reflexivity.
    + intros Hfail. rewrite (forwardAck_failed _ _ _ Hfail).
      now eexists [_; _; _].
Qed.
End Router.

(** ** The scan on identifiers that contain one another *)

(** C3, evaluated where it fails.  [eve]'s identifier is a different one from
    [bob]'s but occurs inside it, so the scan matches the topic of [bob]'s
    ticket: in both revisions [eve]'s direct message is forwarded into the
    channel [C1], the very channel [bob]'s message goes to, and no channel is
    created for [eve].  Staff replies written there go to [bob], the owner
    the topic names. *)
Theorem C3_contained_identifier_shares_ticket :
  User.ID Sample.eve <> User.ID Sample.bob /\
  Contains (User.ID Sample.bob) (User.ID Sample.eve) = true /\
  topicUserID (Channel.Topic Sample.bobTicket) = User.ID Sample.bob /\
  Sample.rev2 Sample.live (Sample.direct Sample.bob "hello" []) =
    ([DoChannelMessageSendEmbed "C1" (userEmbed (Sample.direct Sample.bob "hello" []));
      DoMessageReactionAdd "C1" "M100" "📩";
      DoInsertOne (userEntry Sample.now (Sample.direct Sample.bob "hello" []))],
     Some tt) /\
  Sample.rev2 Sample.live (Sample.direct Sample.eve "help" []) =
    ([DoChannelMessageSendEmbed "C1" (userEmbed (Sample.direct Sample.eve "help" []));
      DoMessageReactionAdd "C1" "M100" "📩";
      DoInsertOne (userEntry Sample.now (Sample.direct Sample.eve "help" []))],
     Some tt) /\
  Sample.rev1 Sample.live (Sample.direct Sample.bob "hello" []) =
    ([DoChannelMessageSendEmbed "C1" (userEmbed (Sample.direct Sample.bob "hello" []));
      DoInsertOne (userEntry Sample.now (Sample.direct Sample.bob "hello" []))],
     Some tt) /\
  Sample.rev1 Sample.live (Sample.direct Sample.eve "help" []) =
    ([DoChannelMessageSendEmbed "C1" (userEmbed (Sample.direct Sample.eve "help" []));
      DoInsertOne (userEntry Sample.now (Sample.direct Sample.eve "help" []))],
     Some tt).
Proof. repeat split; [discriminate | reflexivity..]. Qed.

(** Where the scan does keep two users apart: a channel found for one user
    whose topic does not contain the other's identifier is not the channel
    found for the other. *)
Lemma scan_keeps_apart channels u1 u2 c1 c2 :
  scanChannels channels u1 = Some c1 ->
  scanChannels channels u2 = Some c2 ->
  Contains (Channel.Topic c1) u2 = false ->
  c1 <> c2.
Proof.
  intros H1 H2 Hno Heq. subst c2.
  destruct (scanChannels_Some _ _ _ H2) as (_ & _ & _ & _ & Hopen).
  unfold openTicket in Hopen. congruence.
Qed.

(** ** A second ticket for a user who has one *)

(** C1, evaluated where it fails.  [bob] has an open ticket, the channel [C1]
    that the session knows with [bob]'s identifier in its topic, but the
    request that lists the guild's channels fails.  Its error is dropped, the
    scan runs over the nil slice, and in both revisions the handler asks for
    a second channel for [bob] and forwards the message into the new channel
    [C2] instead of [C1].  Nor does a listing that succeeds always lead to
    the user's own channel: [eve]'s ticket [C6] is listed after [bob]'s,
    whose topic contains her identifier too, and her message goes into
    [C1]. *)
Theorem C1_failed_listing_opens_second_ticket :
  Session.StateChannel More.unlisted "C1" = Some Sample.bobTicket /\
  Contains (Channel.Topic Sample.bobTicket) (User.ID Sample.bob) = true /\
  Session.GuildChannels More.unlisted "G1" = [] /\
  Sample.rev2 More.unlisted (Sample.direct Sample.bob "again" []) =
    ([DoGuildChannelCreateComplex "G1"
        (ticketData Sample.noUnicode "CAT1" Sample.bob);
      DoChannelMessageSendEmbed "DM-123456789012345678"
        (Rev2.ticketCreatedEmbed Sample.now Sample.rfc3339);
      DoChannelMessageSendEmbed "C2" (newTicketEmbed Sample.bob);
      DoChannelMessageSendEmbed "C2"
        (userEmbed (Sample.direct Sample.bob "again" []));
      DoMessageReactionAdd "C2" "M100" "📩";
      DoInsertOne (userEntry Sample.now (Sample.direct Sample.bob "again" []))],
     Some tt) /\
  Sample.rev1 More.unlisted (Sample.direct Sample.bob "again" []) =
    ([DoGuildChannelCreateComplex "G1"
        (ticketData Sample.noUnicode "CAT1" Sample.bob);
      DoChannelMessageSendEmbed "C2" (newTicketEmbed Sample.bob);
      DoChannelMessageSendEmbed "C2"
        (userEmbed (Sample.direct Sample.bob "again" []));
      DoInsertOne (userEntry Sample.now (Sample.direct Sample.bob "again" []))],
     Some tt) /\
  topicUserID (Channel.Topic More.eveTicket) = User.ID Sample.eve /\
  In More.eveTicket (Session.GuildChannels More.crowded "G1") /\
  Sample.rev2 More.crowded (Sample.direct Sample.eve "help" []) =
    ([DoChannelMessageSendEmbed "C1"
        (userEmbed (Sample.direct Sample.eve "help" []));
      DoMessageReactionAdd "C1" "M100" "📩";
      DoInsertOne (userEntry Sample.now (Sample.direct Sample.eve "help" []))],
     Some tt).
Proof.
  repeat split; try reflexivity.
  simpl. right. left. reflexivity.
Qed.

(** ** The close command when the owner cannot be reached *)

(** C4, evaluated where it fails.  The message is [!close] in [bob]'s
    ticket channel and the request for [bob]'s direct-message channel fails.
    The error of [UserChannelCreate] is dropped on the close path, so [dm] is
    nil and [dm.ID] panics: in both revisions the run stops after the
    deletion request and the failed request, and no closing notice is sent,
    although the channel is gone.  The reply path of the same handler checks
    that error and returns. *)
Theorem C4_close_without_notice :
  ticketChannel "CAT1" Sample.failing (Sample.inChannel "C1" "!close" [])
    Sample.bobTicket /\
  topicUserID (Channel.Topic Sample.bobTicket) <> "" /\
  ToLower Sample.noUnicode
    (MessageCreate.Content (Sample.inChannel "C1" "!close" [])) = "!close" /\
  Session.UserChannelCreate Sample.failing
    (topicUserID (Channel.Topic Sample.bobTicket)) = None /\
  Sample.rev2 Sample.failing (Sample.inChannel "C1" "!close" []) =
    ([DoChannelDelete "C1"; DoUserChannelCreate "123456789012345678"], None) /\
  Sample.rev1 Sample.failing (Sample.inChannel "C1" "!close" []) =
    ([DoChannelDelete "C1"; DoUserChannelCreate "123456789012345678"], None) /\
  ~ (exists notice,
       In notice (trace (Sample.rev2 Sample.failing
                           (Sample.inChannel "C1" "!close" []))) /\
       isClosingNotice notice = true).
Proof.
  repeat split; try reflexivity; try discriminate.
  intros (notice & Hin & Hnotice).
  cbn in Hin. destruct Hin as [<- | [<- | []]]; discriminate.
Qed.

(** ** The properties at work on the sample deployment *)


Lemma C2_direct_message_outcome_witness :
  User.ID Sample.carol <> Session.StateUserID Sample.live /\
  (filter isInsert
     (trace (Sample.rev2 Sample.live (Sample.direct Sample.carol "hello" []))) =
   [DoInsertOne (userEntry Sample.now (Sample.direct Sample.carol "hello" []))]
   \/
   filter isInsert
     (trace (Sample.rev2 Sample.live (Sample.direct Sample.carol "hello" []))) = []).
Proof.
  split; [discriminate |].
  destruct (C2_direct_message_outcome "G1" "CAT1" Sample.now Sample.rfc3339
              Sample.noUnicode Sample.live (Sample.direct Sample.carol "hello" []))
    as [(ch & _ & _ & Hlog & _) | (_ & _ & _ & _ & Hlog & _)];
    [discriminate | reflexivity | left; exact Hlog | right; exact Hlog].
Defined.

Lemma close_command_run_witness :
  ticketChannel "CAT1" Sample.live (Sample.inChannel "C1" "!CLOSE" [])
    Sample.bobTicket /\
  ToLower Sample.noUnicode "!CLOSE" = "!close" /\
  Sample.rev2 Sample.live (Sample.inChannel "C1" "!CLOSE" []) =
  ([DoChannelDelete "C1";
    DoUserChannelCreate "123456789012345678";
    DoChannelMessageSend "DM-123456789012345678" "🔒 Your ticket has been closed."],
   Some tt).
Proof.
  assert (Hticket : ticketChannel "CAT1" Sample.live
                      (Sample.inChannel "C1" "!CLOSE" []) Sample.bobTicket)
    by (repeat split; reflexivity).
  split; [exact Hticket | split; [reflexivity |]].
  destruct (close_command_run "G1" "CAT1" Sample.now Sample.rfc3339 Sample.noUnicode
              Sample.live (Sample.inChannel "C1" "!CLOSE" []) Sample.bobTicket)
    as (_ & _ & Hrun);
    [discriminate | discriminate | exact Hticket | discriminate | reflexivity |].
  exact (Hrun _ eq_refl).
Defined.

Lemma C5_outside_ticket_channels_witness :
  Rev2.resolveChannel Sample.live "C4" = Some Sample.lounge /\
  Channel.ParentID Sample.lounge <> "CAT1" /\
  Sample.rev2 Sample.live (Sample.inChannel "C4" "hello" [Sample.photo]) =
  ([], Some tt).
Proof.
  assert (Hparent : Channel.ParentID Sample.lounge <> "CAT1") by discriminate.
  split; [reflexivity | split; [exact Hparent |]].
  apply (C5_outside_ticket_channels "G1" "CAT1" Sample.now Sample.rfc3339
           Sample.noUnicode Sample.live
           (Sample.inChannel "C4" "hello" [Sample.photo]));
    [discriminate |].
  right. exists Sample.lounge. split; [reflexivity | left; exact Hparent].
Defined.

Lemma C6_staff_reply_witness :
  Sample.rev2 Sample.live (Sample.inChannel "C1" "on it" [Sample.photo]) =
  ([DoUserChannelCreate "123456789012345678";
    DoChannelMessageSendEmbed "DM-123456789012345678"
      (staffEmbed (Sample.inChannel "C1" "on it" [Sample.photo]));
    DoMessageReactionAdd "C1" "M2" "✅";
    DoInsertOne
      {| ModmailLog.UserID := "123456789012345678";
         ModmailLog.Content := "on it";
         ModmailLog.HasFile := true;
         ModmailLog.Timestamp := Sample.now;
         ModmailLog.Sender := "staff" |}],
   Some tt) /\
  Sample.rev2 Sample.undeliverable (Sample.inChannel "C1" "on it" [Sample.photo]) =
  ([DoUserChannelCreate "123456789012345678";
    DoChannelMessageSendEmbed "DM-123456789012345678"
      (staffEmbed (Sample.inChannel "C1" "on it" [Sample.photo]));
    DoChannelMessageSend "C1" "❌ Failed to send DM (DMs might be closed)."],
   Some tt).
Proof.
  split.
  - destruct (C6_staff_reply "G1" "CAT1" Sample.now Sample.rfc3339 Sample.noUnicode
                Sample.live (Sample.inChannel "C1" "on it" [Sample.photo])
                Sample.bobTicket
                (Channel.mk "DM-123456789012345678" "" "" "" ""))
      as [Hsent _];
      [discriminate | discriminate | repeat split; reflexivity | discriminate
      | discriminate | reflexivity |].
    exact (Hsent (Message.mk "M100") eq_refl).
  - destruct (C6_staff_reply "G1" "CAT1" Sample.now Sample.rfc3339 Sample.noUnicode
                Sample.undeliverable
                (Sample.inChannel "C1" "on it" [Sample.photo])
                Sample.bobTicket
                (Channel.mk "DM-123456789012345678" "" "" "" ""))
      as [_ Hfailed];
      [discriminate | discriminate | repeat split; reflexivity | discriminate
      | discriminate | reflexivity |].
    exact (Hfailed eq_refl).
Defined.

Lemma C7_log_entry_fields_witness :
  In (DoInsertOne
        (userEntry Sample.now (Sample.direct Sample.bob "see" [Sample.photo])))
     (trace (Sample.rev2 Sample.live (Sample.direct Sample.bob "see" [Sample.photo]))) /\
  ModmailLog.Sender
    (userEntry Sample.now (Sample.direct Sample.bob "see" [Sample.photo])) = "user" /\
  (ModmailLog.HasFile
     (userEntry Sample.now (Sample.direct Sample.bob "see" [Sample.photo])) = true <->
   1 <= 1).
Proof.
  assert (Hin : In (DoInsertOne
                      (userEntry Sample.now
                         (Sample.direct Sample.bob "see" [Sample.photo])))
                   (trace (Sample.rev2 Sample.live
                             (Sample.direct Sample.bob "see" [Sample.photo]))))
    by (simpl; right; right; left; reflexivity).
  split; [exact Hin |].
  destruct (C7_log_entry_fields "G1" "CAT1" Sample.now Sample.rfc3339
              Sample.noUnicode Sample.live
              (Sample.direct Sample.bob "see" [Sample.photo]) _ Hin)
    as (Hfile & Hsender & _).
  split; [exact Hsender | exact Hfile].
Defined.

Lemma C8_channel_name_witness :
  channelName Sample.noUnicode "Bob!" = "ticket-bob" /\
  string_forallb (fun c => negb (isAlnum c)) "~~~" = true /\
  channelName Sample.noUnicode "~~~" = "ticket-" /\
  (forall guildID data,
     In (DoGuildChannelCreateComplex guildID data)
        (trace (Sample.rev2 Sample.live (Sample.direct Sample.carol "hello" []))) ->
     GuildChannelCreateData.Name data = "ticket-").
Proof.
  split; [| split; [reflexivity | split]].
  - exact (proj1 (C8_channel_name "G1" "CAT1" Sample.now Sample.rfc3339
                    Sample.noUnicode "Bob!")).
  - apply (proj1 (proj2 (C8_channel_name "G1" "CAT1" Sample.now Sample.rfc3339
                           Sample.noUnicode "~~~"))).
    reflexivity.
  - apply (proj2 (proj2 (C8_channel_name "G1" "CAT1" Sample.now Sample.rfc3339
                           Sample.noUnicode "~~~"))).
    reflexivity.
Defined.

Lemma C9_bare_topic_witness :
  ticketChannel "CAT1" Sample.live (Sample.inChannel "C3" "!close" [])
    Sample.bareTicket /\
  Channel.Topic Sample.bareTicket = "Modmail ID: " /\
  Sample.rev2 Sample.live (Sample.inChannel "C3" "!close" []) = ([], Some tt).
Proof.
  assert (Hticket : ticketChannel "CAT1" Sample.live
                      (Sample.inChannel "C3" "!close" []) Sample.bareTicket)
    by (repeat split; reflexivity).
  split; [exact Hticket | split; [reflexivity |]].
  apply (C9_bare_topic "G1" "CAT1" Sample.now Sample.rfc3339 Sample.noUnicode
           Sample.live (Sample.inChannel "C3" "!close" []) Sample.bareTicket);
    [discriminate | exact Hticket | reflexivity].
Defined.

Lemma C10_user_entry_unconditional_witness :
  Session.ChannelMessageSendEmbed Sample.undeliverable "C1"
    (userEmbed (Sample.direct Sample.bob "hello" [])) = None /\
  exists before,
    trace (Sample.rev2 Sample.undeliverable (Sample.direct Sample.bob "hello" [])) =
    (before ++
     [DoChannelMessageSendEmbed "C1" (userEmbed (Sample.direct Sample.bob "hello" []));
      DoInsertOne
        {| ModmailLog.UserID := "123456789012345678";
           ModmailLog.Content := "hello";
           ModmailLog.HasFile := false;
           ModmailLog.Timestamp := Sample.now;
           ModmailLog.Sender := "user" |}])%list.
Proof.
  split; [reflexivity |].
  destruct (C10_user_entry_unconditional "G1" "CAT1" Sample.now Sample.rfc3339
              Sample.noUnicode Sample.undeliverable
              (Sample.direct Sample.bob "hello" []) Sample.bobTicket)
    as (_ & _ & Hfailed);
    [discriminate | reflexivity | left; reflexivity |].
  exact (Hfailed eq_refl).
Defined.

(** * Further properties of the router *)

Lemma scanChannels_first before ch after userID :
  forallb (fun c => negb (openTicket userID c)) before = true ->
  openTicket userID ch = true ->
  scanChannels (before ++ ch :: after) userID = Some ch.
Proof.
  unfold openTicket. induction before as [| c before IH]; simpl; intros Hb Hc.
  - now rewrite Hc.
  - apply andb_true_iff in Hb. destruct Hb as [Hn Hb].
    apply negb_true_iff in Hn. rewrite Hn. now apply IH.
Qed.

Lemma Contains_created_topic userID :
  Contains ("Modmail ID: " ++ userID) userID = true.
Proof.
  apply Contains_iff. exists "Modmail ID: ", "".
  f_equal. induction userID as [| c u IH]; simpl; [reflexivity | now rewrite <- IH].
Qed.

Lemma topicUserID_inv topic :
  topicUserID topic <> "" -> topic = "Modmail ID: " ++ topicUserID topic.
Proof.
  unfold topicUserID.
  destruct (HasPrefix topic "Modmail ID: ") eqn:E; [| congruence].
  intros _. destruct (HasPrefix_inv _ _ E) as [r ->].
  now rewrite TrimPrefix_app.
Qed.

Ltac in_trace :=
  repeat
    match goal with
    | H : In _ [] |- _ => destruct H
    | H : In _ (_ :: _) |- _ => destruct H as [H | H]; [try discriminate H |]
    | H : In _ (_ ++ _)%list |- _ => apply in_app_or in H; destruct H as [H | H]
    | H : In _ (forwardAck ?s ?c ?m) |- _ =>
        unfold forwardAck in H;
        destruct (Session.ChannelMessageSendEmbed s (Channel.ID c) (userEmbed m))
    end.

(** X2. The scan returns the first listed channel whose topic contains the
    author's identifier, and finds nothing exactly when no listed topic
    contains it. *)
Theorem scan_returns_first_match (channels : list Channel.t) (userID : string) :
  (forall ch,
     scanChannels channels userID = Some ch <->
     exists before after,
       channels = (before ++ ch :: after)%list /\
       forallb (fun c => negb (Contains (Channel.Topic c) userID)) before = true /\
       Contains (Channel.Topic ch) userID = true) /\
  (scanChannels channels userID = None <->
   forall c, In c channels -> Contains (Channel.Topic c) userID = false).
Proof.
  split; [intros ch; split |].
  - apply scanChannels_Some.
  - intros (before & after & -> & Hb & Hc). now apply scanChannels_first.
  - apply scanChannels_None.
Qed.

(** X3. The topic is a faithful carrier of the owner: the identifier read
    from the topic written at creation is the identifier written, and a
    topic from which a non-empty identifier is read is the fixed prefix
    followed by that identifier. *)
Theorem topic_round_trip (userID topic : string) :
  topicUserID ("Modmail ID: " ++ userID) = userID /\
  (topicUserID topic <> "" -> topic = "Modmail ID: " ++ topicUserID topic).
Proof. split; [apply topicUserID_created | apply topicUserID_inv]. Qed.

Section RouterMore.
Variables GuildID CategoryID : string.
Variable Now : Z.
Variable RFC3339 : Z -> string.
Variable unicodeToLower : string -> string.

Local Notation "'rev1'" :=
  (Rev1.messageCreate GuildID CategoryID Now unicodeToLower).
Local Notation "'rev2'" :=
  (Rev2.messageCreate GuildID CategoryID Now RFC3339 unicodeToLower).
Local Notation "'paths'" :=
  (rev2_paths GuildID CategoryID Now RFC3339 unicodeToLower).

Lemma rev1_own_message s m :
  User.ID (MessageCreate.Author m) = Session.StateUserID s ->
  rev1 s m = ([], Some tt).
Proof.
  intros H. unfold Rev1.messageCreate. rewrite H, String.eqb_refl. reflexivity.
Qed.

(** X1. A message written by the bot itself is dropped by both revisions
    before anything is looked up or requested, whatever its origin and
    text. *)
Theorem own_messages_are_dropped (s : Session.t) (m : MessageCreate.t) :
  User.ID (MessageCreate.Author m) = Session.StateUserID s ->
  rev1 s m = ([], Some tt) /\ rev2 s m = ([], Some tt).
Proof.
  intros Hown. split; [now apply rev1_own_message | now apply rev2_own_message].
Qed.

(** X4. Whenever the handler asks for a new channel, the event is a direct
    message of a non-bot author for whom the scan found nothing, and the
    request is made in the configured guild, under the configured category,
    with a topic from which the author's identifier is read back. *)
Theorem creation_request_shape (s : Session.t) (m : MessageCreate.t)
    (guildID : string) (data : GuildChannelCreateData.t) :
  In (DoGuildChannelCreateComplex guildID data) (trace (rev2 s m)) ->
  User.ID (MessageCreate.Author m) <> Session.StateUserID s /\
  MessageCreate.GuildID m = "" /\
  scanChannels (Session.GuildChannels s GuildID)
    (User.ID (MessageCreate.Author m)) = None /\
  guildID = GuildID /\
  GuildChannelCreateData.ParentID data = CategoryID /\
  GuildChannelCreateData.Topic data =
    "Modmail ID: " ++ User.ID (MessageCreate.Author m) /\
  topicUserID (GuildChannelCreateData.Topic data) =
    User.ID (MessageCreate.Author m).
Proof.
  intros Hin. remember (rev2 s m) as run eqn:Hrun.
  pose proof (paths s m) as Hpath. rewrite <- Hrun in Hpath.
  destruct Hpath; cbn [trace fst] in Hin; in_trace;
    try discriminate; try contradiction.
  all: injection Hin as <- <-; cbn [ticketData GuildChannelCreateData.ParentID
                                    GuildChannelCreateData.Topic];
    rewrite topicUserID_created; repeat split; assumption.
Qed.

(** X5. The only channel the handler ever asks to delete is the one the
    message was written in, and only for a non-bot guild message in a ticket
    channel with an owner whose lowered text is [!close]. *)
Theorem deletion_only_on_close (s : Session.t) (m : MessageCreate.t)
    (channelID : string) :
  In (DoChannelDelete channelID) (trace (rev2 s m)) ->
  channelID = MessageCreate.ChannelID m /\
  User.ID (MessageCreate.Author m) <> Session.StateUserID s /\
  MessageCreate.GuildID m <> "" /\
  ToLower unicodeToLower (MessageCreate.Content m) = "!close" /\
  exists ch,
    ticketChannel CategoryID s m ch /\ topicUserID (Channel.Topic ch) <> "".
Proof.
  intros Hin. remember (rev2 s m) as run eqn:Hrun.
  pose proof (paths s m) as Hpath. rewrite <- Hrun in Hpath.
  destruct Hpath; cbn [trace fst] in Hin; in_trace;
    try discriminate; try contradiction.
  all: injection Hin as <-; repeat split; try assumption; now exists ch.
Qed.

(** X6. One event gives at most one log entry, and a run that ends in the
    nil-pointer panic has written no log entry and forwarded nothing. *)
Theorem at_most_one_log_entry (s : Session.t) (m : MessageCreate.t) :
  List.length (filter isInsert (trace (rev2 s m))) <= 1 /\
  (returned (rev2 s m) = None ->
   filter isInsert (trace (rev2 s m)) = [] /\
   filter isForward (trace (rev2 s m)) = []).
Proof.
  remember (rev2 s m) as run eqn:Hrun.
  pose proof (paths s m) as Hpath. rewrite <- Hrun in Hpath.
  destruct Hpath; read_trace; (split; [simpl; lia |]);
    intros Hnone; try discriminate Hnone; split; reflexivity.
Qed.

(** X7. When the listing of the guild's channels comes back empty, as it does
    when the request fails, every direct message of a non-bot author starts
    with a request for a new ticket channel, in both revisions. *)
Theorem empty_listing_opens_ticket (s : Session.t) (m : MessageCreate.t) :
  Session.GuildChannels s GuildID = [] ->
  User.ID (MessageCreate.Author m) <> Session.StateUserID s ->
  MessageCreate.GuildID m = "" ->
  (exists rest,
     trace (rev1 s m) =
     DoGuildChannelCreateComplex GuildID
       (ticketData unicodeToLower CategoryID (MessageCreate.Author m)) :: rest) /\
  (exists rest,
     trace (rev2 s m) =
     DoGuildChannelCreateComplex GuildID
       (ticketData unicodeToLower CategoryID (MessageCreate.Author m)) :: rest).
Proof.
  intros Hempty Hbot Hdm.
  assert (Hscan : scanChannels (Session.GuildChannels s GuildID)
                    (User.ID (MessageCreate.Author m)) = None)
    by now rewrite Hempty.
  destruct (Session.GuildChannelCreateComplex s GuildID
              (ticketData unicodeToLower CategoryID (MessageCreate.Author m)))
    as [ch |] eqn:Hnew; split.
  - rewrite (rev1_dm_create _ _ _ _ _ _ ch Hbot Hdm Hscan Hnew). now eexists.
  - rewrite (rev2_dm_create _ _ _ _ _ _ _ ch Hbot Hdm Hscan Hnew). now eexists.
  - rewrite (rev1_dm_create_failed _ _ _ _ _ _ Hbot Hdm Hscan Hnew). now eexists.
  - rewrite (rev2_dm_create_failed _ _ _ _ _ _ _ Hbot Hdm Hscan Hnew). now eexists.
Qed.

(** X8. A staff reply whose recipient's direct-message channel cannot be
    opened is given up silently by the second revision: the failed request is
    the whole run, with no notice to the staff and no log entry. *)
Theorem reply_without_dm_channel_is_silent (s : Session.t) (m : MessageCreate.t)
    (ch : Channel.t) :
  User.ID (MessageCreate.Author m) <> Session.StateUserID s ->
  MessageCreate.GuildID m <> "" ->
  ticketChannel CategoryID s m ch ->
  topicUserID (Channel.Topic ch) <> "" ->
  ToLower unicodeToLower (MessageCreate.Content m) <> "!close" ->
  Session.UserChannelCreate s (topicUserID (Channel.Topic ch)) = None ->
  rev2 s m = ([DoUserChannelCreate (topicUserID (Channel.Topic ch))], Some tt).
Proof.
  intros Hbot Hguild Hticket Howner Hclose Hdm.
  exact (rev2_reply_no_dm _ _ _ _ _ _ _ ch Hbot Hguild Hticket Howner Hclose Hdm).
Qed.

(** X9. Creation and scan fit together: a listed channel that carries the
    topic the handler asks for when it opens a ticket for the author is the
    channel the author's next direct message is forwarded into, without a
    new creation request, provided no topic listed before it contains the
    identifier. *)
Theorem created_ticket_is_found_again (s : Session.t) (m : MessageCreate.t)
    (before after : list Channel.t) (ch : Channel.t) :
  User.ID (MessageCreate.Author m) <> Session.StateUserID s ->
  MessageCreate.GuildID m = "" ->
  Session.GuildChannels s GuildID = (before ++ ch :: after)%list ->
  Channel.Topic ch =
    GuildChannelCreateData.Topic
      (ticketData unicodeToLower CategoryID (MessageCreate.Author m)) ->
  (forall c, In c before ->
             Contains (Channel.Topic c) (User.ID (MessageCreate.Author m)) = false) ->
  rev2 s m =
  ((DoChannelMessageSendEmbed (Channel.ID ch) (userEmbed m)
      :: forwardAck s ch m ++ [DoInsertOne (userEntry Now m)])%list,
   Some tt).
Proof.
  intros Hbot Hdm Hlist Htopic Hbefore.
  apply rev2_dm_reuse; try assumption.
  rewrite Hlist. apply scanChannels_first.
  - apply forallb_forall. intros c Hc. unfold openTicket.
    now rewrite (Hbefore c Hc).
  - unfold openTicket. rewrite Htopic. apply Contains_created_topic.
Qed.

(** X10. Creation and reply fit together: a staff message that is not the
    close command, written in a ticket channel that carries the topic the
    handler asks for when it opens a ticket for [user], starts by opening the
    direct-message channel of exactly that user. *)
Theorem reply_reaches_the_ticket_owner (s : Session.t) (m : MessageCreate.t)
    (ch : Channel.t) (user : User.t) :
  User.ID (MessageCreate.Author m) <> Session.StateUserID s ->
  MessageCreate.GuildID m <> "" ->
  ticketChannel CategoryID s m ch ->
  Channel.Topic ch =
    GuildChannelCreateData.Topic (ticketData unicodeToLower CategoryID user) ->
  User.ID user <> "" ->
  ToLower unicodeToLower (MessageCreate.Content m) <> "!close" ->
  exists rest, trace (rev2 s m) = DoUserChannelCreate (User.ID user) :: rest.
Proof.
  intros Hbot Hguild Hticket Htopic Huser Hclose.
  assert (Hid : topicUserID (Channel.Topic ch) = User.ID user).
  { rewrite Htopic. apply topicUserID_created. }
  assert (Howner : topicUserID (Channel.Topic ch) <> "") by now rewrite Hid.
  rewrite <- Hid.
  destruct (Session.UserChannelCreate s (topicUserID (Channel.Topic ch)))
    as [dm |] eqn:Hdm.
  - destruct (Session.ChannelMessageSendEmbed s (Channel.ID dm) (staffEmbed m))
      as [sent |] eqn:Hsent.
    + rewrite (rev2_reply_sent _ _ _ _ _ _ _ ch Hbot Hguild Hticket Howner dm sent
                 Hclose Hdm Hsent). now eexists.
    + rewrite (rev2_reply_failed _ _ _ _ _ _ _ ch Hbot Hguild Hticket Howner dm
                 Hclose Hdm Hsent). now eexists.
  - rewrite (rev2_reply_no_dm _ _ _ _ _ _ _ ch Hbot Hguild Hticket Howner
               Hclose Hdm). now eexists.
Qed.

(** X11. On direct messages the second revision is the first one plus
    acknowledgments: with the "Ticket Created" notice and the envelope
    reaction taken out, its requests are the first revision's, in the same
    order, and both end the same way. *)
Theorem direct_path_adds_only_acknowledgments (s : Session.t)
    (m : MessageCreate.t) :
  MessageCreate.GuildID m = "" ->
  filter (fun e => negb (isAck e)) (trace (rev2 s m)) = trace (rev1 s m) /\
  returned (rev2 s m) = returned (rev1 s m).
Proof.
  intros Hdm.
  assert (Hack : forall ch, filter (fun e => negb (isAck e)) (forwardAck s ch m) = []).
  { intros ch. unfold forwardAck.
    destruct (Session.ChannelMessageSendEmbed s (Channel.ID ch) (userEmbed m));
      reflexivity. }
  destruct (string_dec (User.ID (MessageCreate.Author m)) (Session.StateUserID s))
    as [Hown | Hbot].
  { rewrite rev1_own_message, rev2_own_message by exact Hown. now split. }
  destruct (scanChannels (Session.GuildChannels s GuildID)
              (User.ID (MessageCreate.Author m))) as [ch |] eqn:Hscan.
  - rewrite (rev1_dm_reuse _ _ _ _ _ _ ch Hbot Hdm Hscan),
            (rev2_dm_reuse _ _ _ _ _ _ _ ch Hbot Hdm Hscan).
    cbn [trace returned fst snd]. split; [| reflexivity].
    cbn [filter isAck negb userEmbed MessageEmbed.Title String.eqb].
    now rewrite filter_app, Hack.
  - destruct (Session.GuildChannelCreateComplex s GuildID
                (ticketData unicodeToLower CategoryID (MessageCreate.Author m)))
      as [ch |] eqn:Hnew.
    + rewrite (rev1_dm_create _ _ _ _ _ _ ch Hbot Hdm Hscan Hnew),
              (rev2_dm_create _ _ _ _ _ _ _ ch Hbot Hdm Hscan Hnew).
      cbn [trace returned fst snd]. split; [| reflexivity].
      cbn. now rewrite filter_app, Hack.
    + rewrite (rev1_dm_create_failed _ _ _ _ _ _ Hbot Hdm Hscan Hnew),
              (rev2_dm_create_failed _ _ _ _ _ _ _ Hbot Hdm Hscan Hnew).
      now split.
Qed.
End RouterMore.

(** ** Start-up *)

Lemma config_missing_iff (getenv : string -> string) :
  (getenv "DISCORD_TOKEN" =? "") || (getenv "STAFF_GUILD_ID" =? "")
  || (getenv "CATEGORY_ID" =? "") || (getenv "MONGO_URI" =? "") = true <->
  getenv "DISCORD_TOKEN" = "" \/ getenv "STAFF_GUILD_ID" = "" \/
  getenv "CATEGORY_ID" = "" \/ getenv "MONGO_URI" = "".
Proof.
  rewrite !orb_true_iff, !String.eqb_eq. tauto.
Qed.

(** X12. Start-up attempts nothing exactly when one of the four required
    settings is empty, and then it stops with the "missing environment
    variables" message of the revision. *)
Theorem startup_requires_configuration (getenv : string -> string) (b : Boot.t) :
  (fst (Rev2Main.main getenv b) = [] <->
   getenv "DISCORD_TOKEN" = "" \/ getenv "STAFF_GUILD_ID" = "" \/
   getenv "CATEGORY_ID" = "" \/ getenv "MONGO_URI" = "") /\
  (fst (Rev2Main.main getenv b) = [] ->
   Rev2Main.main getenv b = ([], Fatal "Missing environment variables.")) /\
  (fst (Rev1Main.main getenv b) = [] <->
   getenv "DISCORD_TOKEN" = "" \/ getenv "STAFF_GUILD_ID" = "" \/
   getenv "CATEGORY_ID" = "" \/ getenv "MONGO_URI" = "") /\
  (fst (Rev1Main.main getenv b) = [] ->
   Rev1Main.main getenv b = ([], Fatal "Missing required environment variables.")).
Proof.
  rewrite <- config_missing_iff.
  unfold Rev2Main.main, Rev1Main.main.
  destruct ((getenv "DISCORD_TOKEN" =? "") || (getenv "STAFF_GUILD_ID" =? "")
            || (getenv "CATEGORY_ID" =? "") || (getenv "MONGO_URI" =? "")).
  - repeat split; reflexivity.
  - destruct (Boot.mongoConnect b), (Boot.discordNew b), (Boot.discordOpen b);
      cbn [fst]; repeat split; intros H; discriminate H.
Qed.

(** X13. The health endpoint is started only by a start-up that went all the
    way: the four settings are present, the store and the gateway connected
    without error, the handler was registered before the gateway was opened;
    it is served on [:PORT], on [:10000] when [PORT] is empty, and [main]
    then waits for the signal and returns. *)
Theorem health_endpoint_means_started (getenv : string -> string) (b : Boot.t)
    (addr : string) :
  In (ServeHealth addr) (fst (Rev2Main.main getenv b)) ->
  (getenv "DISCORD_TOKEN" <> "" /\ getenv "STAFF_GUILD_ID" <> "" /\
   getenv "CATEGORY_ID" <> "" /\ getenv "MONGO_URI" <> "") /\
  (Boot.mongoConnect b = None /\ Boot.discordNew b = None /\
   Boot.discordOpen b = None) /\
  addr = ":" ++ (if getenv "PORT" =? "" then "10000" else getenv "PORT") /\
  Rev2Main.main getenv b =
  ([MongoConnect (getenv "MONGO_URI");
    DiscordNew ("Bot " ++ getenv "DISCORD_TOKEN");
    AddHandler; DiscordOpen; ServeHealth addr;
    Println "Bot is live. Ticket creation alerts and reactions enabled.";
    AwaitSignal],
   Returned).
Proof.
  unfold Rev2Main.main.
  destruct (getenv "DISCORD_TOKEN" =? "") eqn:Ht; [intros [] |].
  destruct (getenv "STAFF_GUILD_ID" =? "") eqn:Hg; [intros [] |].
  destruct (getenv "CATEGORY_ID" =? "") eqn:Hc; [intros [] |].
  destruct (getenv "MONGO_URI" =? "") eqn:Hm; [intros [] |].
  apply String.eqb_neq in Ht, Hg, Hc, Hm. cbn [orb].
  destruct (Boot.mongoConnect b), (Boot.discordNew b), (Boot.discordOpen b);
    cbn [fst]; intros Hin;
    repeat (destruct Hin as [Hin | Hin]; [try discriminate Hin |]);
    try contradiction.
  injection Hin as <-. repeat split; assumption.
Qed.

(** X14. Start-up and handler fit together: the handler is registered only
    with a non-empty ticket category, so the registered handler ignores every
    message written in a guild channel that has no parent category. *)
Theorem uncategorised_channels_are_ignored (getenv : string -> string)
    (b : Boot.t) (now : Z) (rfc3339 : Z -> string)
    (unicodeToLower : string -> string) (s : Session.t) (m : MessageCreate.t)
    (ch : Channel.t) :
  In AddHandler (fst (Rev2Main.main getenv b)) ->
  MessageCreate.GuildID m <> "" ->
  Rev2.resolveChannel s (MessageCreate.ChannelID m) = Some ch ->
  Channel.ParentID ch = "" ->
  Rev2.messageCreate (getenv "STAFF_GUILD_ID") (getenv "CATEGORY_ID") now rfc3339
    unicodeToLower s m = ([], Some tt).
Proof.
  intros Hreg Hguild Hch Hparent.
  assert (Hcat : getenv "CATEGORY_ID" <> "").
  { intros Hempty. revert Hreg. unfold Rev2Main.main.
    rewrite Hempty. cbn [String.eqb]. rewrite !orb_true_r. intros []. }
  apply rev2_guild_rejected; [exact Hguild |].
  intros c (Hc & Hp & _). congruence.
Qed.

(** ** The log-channel revision *)

Lemma cut_at_char c before after :
  lacks c before = true ->
  cut (before ++ String c after) (String c "") = Some (before, after).
Proof.
  unfold lacks. induction before as [| x before IH]; simpl; intros H.
  - now rewrite Ascii.eqb_refl.
  - apply andb_true_iff in H. destruct H as [Hx Hb].
    apply negb_true_iff in Hx. rewrite Hx. cbn [andb]. now rewrite IH.
Qed.

Lemma cut_without_char c s :
  lacks c s = true -> cut s (String c "") = None.
Proof.
  unfold lacks. induction s as [| x s IH]; simpl; intros H; [reflexivity |].
  apply andb_true_iff in H. destruct H as [Hx Hs].
  apply negb_true_iff in Hx. rewrite Hx. cbn [andb]. now rewrite IH.
Qed.

Lemma SplitN_reply userID text :
  lacks " " userID = true ->
  SplitN ("!reply " ++ userID ++ " " ++ text) " " 3 = ["!reply"; userID; text].
Proof.
  intros Hid.
  change ("!reply " ++ userID ++ " " ++ text)
    with ("!reply" ++ String " " (userID ++ String " " text)).
  cbn [SplitN]. rewrite cut_at_char by reflexivity.
  now rewrite cut_at_char by exact Hid.
Qed.

Lemma SplitN_reply_short rest :
  lacks " " rest = true ->
  SplitN ("!reply " ++ rest) " " 3 = ["!reply"; rest].
Proof.
  intros Hrest.
  change ("!reply " ++ rest) with ("!reply" ++ String " " rest).
  cbn [SplitN]. rewrite cut_at_char by reflexivity.
  now rewrite cut_without_char by exact Hrest.
Qed.

Section LogChannel.
Variable LogChannelID : string.
Variable Now : Z.

Local Notation "'messageCreate'" := (Rev0.messageCreate LogChannelID Now).

(** X15. [!reply <id> <text>] in the log channel, with an [id] free of
    spaces (possibly empty): the text after the second space goes to that
    user's direct-message channel unchanged, further spaces included.  A
    recipient whose channel cannot be opened gives the "user not found"
    notice; a delivered reply is logged as [STAFF]/[reply] and confirmed; an
    undelivered one is neither logged nor reported. *)
Theorem reply_command (s : Rev0.Session) (m : MessageCreate.t)
    (userID text : string) :
  User.ID (MessageCreate.Author m) <> Rev0.StateUserID s ->
  MessageCreate.GuildID m <> "" ->
  MessageCreate.ChannelID m = LogChannelID ->
  MessageCreate.Content m = "!reply " ++ userID ++ " " ++ text ->
  lacks " " userID = true ->
  messageCreate s m =
  match Rev0.UserChannelCreate s userID with
  | None =>
      [Rev0.DoUserChannelCreate userID;
       Rev0.DoChannelMessageSend LogChannelID "❌ User not found."]
  | Some userChannel =>
      match Rev0.ChannelMessageSend s (Channel.ID userChannel)
              ("💬 **Staff:** " ++ text) with
      | Some _ =>
          [Rev0.DoUserChannelCreate userID;
           Rev0.DoChannelMessageSend (Channel.ID userChannel)
             ("💬 **Staff:** " ++ text);
           Rev0.DoInsertOne
             {| Rev0.UserID := userID;
                Rev0.Username := "STAFF";
                Rev0.Content := text;
                Rev0.Timestamp := Now;
                Rev0.Type_ := "reply" |};
           Rev0.DoChannelMessageSend LogChannelID "✅ Reply sent."]
      | None =>
          [Rev0.DoUserChannelCreate userID;
           Rev0.DoChannelMessageSend (Channel.ID userChannel)
             ("💬 **Staff:** " ++ text)]
      end
  end.
Proof.
  intros Hbot Hguild Hchan Hcontent Hid.
  apply String.eqb_neq in Hbot, Hguild.
  unfold Rev0.messageCreate.
  rewrite Hbot, Hguild, Hchan, String.eqb_refl, Hcontent, HasPrefix_app.
  rewrite (SplitN_reply _ _ Hid). cbn [andb List.length Nat.ltb Nat.leb nth].
  destruct (Rev0.UserChannelCreate s userID) as [userChannel |]; [| reflexivity].
  destruct (Rev0.ChannelMessageSend s (Channel.ID userChannel)
              ("💬 **Staff:** " ++ text)); reflexivity.
Qed.

(** X16. [!reply ] followed by a single word, or by nothing, is answered with
    the usage notice in the log channel and has no other effect. *)
Theorem reply_without_text (s : Rev0.Session) (m : MessageCreate.t)
    (rest : string) :
  User.ID (MessageCreate.Author m) <> Rev0.StateUserID s ->
  MessageCreate.GuildID m <> "" ->
  MessageCreate.ChannelID m = LogChannelID ->
  MessageCreate.Content m = "!reply " ++ rest ->
  lacks " " rest = true ->
  messageCreate s m =
  [Rev0.DoChannelMessageSend LogChannelID "⚠️ Use: `!reply [UserID] [Message]`"].
Proof.
  intros Hbot Hguild Hchan Hcontent Hrest.
  apply String.eqb_neq in Hbot, Hguild.
  unfold Rev0.messageCreate.
  rewrite Hbot, Hguild, Hchan, String.eqb_refl, Hcontent, HasPrefix_app.
  rewrite (SplitN_reply_short _ Hrest). reflexivity.
Qed.

(** X17. A guild message outside the log channel, or one that does not start
    with [!reply ], has no effect. *)
Theorem other_guild_messages_ignored (s : Rev0.Session) (m : MessageCreate.t) :
  MessageCreate.GuildID m <> "" ->
  MessageCreate.ChannelID m <> LogChannelID \/
  HasPrefix (MessageCreate.Content m) "!reply " = false ->
  messageCreate s m = [].
Proof.
  intros Hguild Hother. apply String.eqb_neq in Hguild.
  unfold Rev0.messageCreate. rewrite Hguild.
  destruct (User.ID (MessageCreate.Author m) =? Rev0.StateUserID s);
    [reflexivity |].
  destruct Hother as [Hchan | Hprefix].
  - apply String.eqb_neq in Hchan. now rewrite Hchan.
  - rewrite Hprefix, andb_false_r. reflexivity.
Qed.

(** X18. A direct message is logged before it is relayed, and the user is
    told "Sent to staff!" whatever became of the relay: the three requests
    are made in this order on every session. *)
Theorem direct_message_logged_then_relayed (s : Rev0.Session)
    (m : MessageCreate.t) :
  User.ID (MessageCreate.Author m) <> Rev0.StateUserID s ->
  MessageCreate.GuildID m = "" ->
  messageCreate s m =
  [Rev0.DoInsertOne
     {| Rev0.UserID := User.ID (MessageCreate.Author m);
        Rev0.Username := User.Username (MessageCreate.Author m);
        Rev0.Content := MessageCreate.Content m;
        Rev0.Timestamp := Now;
        Rev0.Type_ := "incoming" |};
   Rev0.DoChannelMessageSend LogChannelID
     (Rev0.modmailText (User.Username (MessageCreate.Author m))
        (User.ID (MessageCreate.Author m)) (MessageCreate.Content m));
   Rev0.DoChannelMessageSend (MessageCreate.ChannelID m) "✅ Sent to staff!"].
Proof.
  intros Hbot Hdm. apply String.eqb_neq in Hbot.
  unfold Rev0.messageCreate. rewrite Hbot, Hdm. reflexivity.
Qed.

(** X19. Every log entry is either the [incoming] record of a direct message,
    with the author's identifier, name and text, or the [reply] record of a
    staff reply that was delivered: the send of "💬 **Staff:** " and the
    logged text into the direct-message channel opened for the logged user
    succeeded. *)
Theorem log_entries_are_accounted_for (s : Rev0.Session) (m : MessageCreate.t)
    (entry : Rev0.ModmailLog) :
  In (Rev0.DoInsertOne entry) (messageCreate s m) ->
  (MessageCreate.GuildID m = "" /\
   entry =
   {| Rev0.UserID := User.ID (MessageCreate.Author m);
      Rev0.Username := User.Username (MessageCreate.Author m);
      Rev0.Content := MessageCreate.Content m;
      Rev0.Timestamp := Now;
      Rev0.Type_ := "incoming" |})
  \/
  (MessageCreate.GuildID m <> "" /\
   MessageCreate.ChannelID m = LogChannelID /\
   Rev0.Username entry = "STAFF" /\ Rev0.Type_ entry = "reply" /\
   exists userChannel sent,
     Rev0.UserChannelCreate s (Rev0.UserID entry) = Some userChannel /\
     Rev0.ChannelMessageSend s (Channel.ID userChannel)
       ("💬 **Staff:** " ++ Rev0.Content entry) = Some sent).
Proof.
  unfold Rev0.messageCreate.
  destruct (User.ID (MessageCreate.Author m) =? Rev0.StateUserID s);
    [intros [] |].
  destruct (MessageCreate.GuildID m =? "") eqn:Hguild.
  - apply String.eqb_eq in Hguild. cbn. intros [H | [H | [H | []]]];
      try discriminate H.
    left. split; [exact Hguild | now injection H as <-].
  - apply String.eqb_neq in Hguild.
    destruct (MessageCreate.ChannelID m =? LogChannelID) eqn:Hchan;
      [| intros []].
    apply String.eqb_eq in Hchan.
    destruct (HasPrefix (MessageCreate.Content m) "!reply "); [| intros []].
    cbn [andb].
    destruct (List.length (SplitN (MessageCreate.Content m) " " 3) <? 3)%nat.
    { intros [H | []]. discriminate H. }
    destruct (Rev0.UserChannelCreate s
                (nth 1 (SplitN (MessageCreate.Content m) " " 3) ""))
      as [userChannel |] eqn:Hopen.
    2:{ intros [H | [H | []]]; discriminate H. }
    destruct (Rev0.ChannelMessageSend s (Channel.ID userChannel)
                ("💬 **Staff:** " ++ nth 2 (SplitN (MessageCreate.Content m) " " 3) ""))
      as [sent |] eqn:Hsent.
    2:{ intros [H | [H | []]]; discriminate H. }
    cbn. intros [H | [H | [H | [H | []]]]]; try discriminate H.
    injection H as <-. right. cbn.
    repeat split; try assumption. now exists userChannel, sent.
Qed.
End LogChannel.

(** ** The further properties at work on the sample deployment *)

Lemma own_messages_are_dropped_witness :
  Sample.rev2 Sample.live
    (MessageCreate.mk "M9" "C1" "G1"
       (User.mk "800000000000000008" "modmail" "") "!close" []) = ([], Some tt).
Proof.
  apply (own_messages_are_dropped "G1" "CAT1" Sample.now Sample.rfc3339
           Sample.noUnicode Sample.live
           (MessageCreate.mk "M9" "C1" "G1"
              (User.mk "800000000000000008" "modmail" "") "!close" [])).
  reflexivity.
Defined.

Lemma creation_request_shape_witness :
  topicUserID
    (GuildChannelCreateData.Topic
       (ticketData Sample.noUnicode "CAT1" Sample.carol)) = User.ID Sample.carol.
Proof.
  apply (creation_request_shape "G1" "CAT1" Sample.now Sample.rfc3339
           Sample.noUnicode Sample.live (Sample.direct Sample.carol "hello" [])
           "G1" (ticketData Sample.noUnicode "CAT1" Sample.carol)).
  simpl. left. reflexivity.
Defined.

Lemma deletion_only_on_close_witness :
  ToLower Sample.noUnicode "!Close" = "!close".
Proof.
  apply (deletion_only_on_close "G1" "CAT1" Sample.now Sample.rfc3339
           Sample.noUnicode Sample.live (Sample.inChannel "C1" "!Close" []) "C1").
  simpl. left. reflexivity.
Defined.

Lemma empty_listing_opens_ticket_witness :
  exists rest,
    trace (Sample.rev2 More.unlisted (Sample.direct Sample.bob "again" [])) =
    DoGuildChannelCreateComplex "G1"
      (ticketData Sample.noUnicode "CAT1" Sample.bob) :: rest.
Proof.
  apply (empty_listing_opens_ticket "G1" "CAT1" Sample.now Sample.rfc3339
           Sample.noUnicode More.unlisted (Sample.direct Sample.bob "again" []));
    [reflexivity | discriminate | reflexivity].
Defined.

Lemma reply_without_dm_channel_is_silent_witness :
  Sample.rev2 Sample.failing (Sample.inChannel "C1" "on it" []) =
  ([DoUserChannelCreate "123456789012345678"], Some tt).
Proof.
  apply (reply_without_dm_channel_is_silent "G1" "CAT1" Sample.now Sample.rfc3339
           Sample.noUnicode Sample.failing (Sample.inChannel "C1" "on it" [])
           Sample.bobTicket);
    [discriminate | discriminate | repeat split; reflexivity | discriminate
    | discriminate | reflexivity].
Defined.

Lemma created_ticket_is_found_again_witness :
  Sample.rev2 Sample.undeliverable (Sample.direct Sample.bob "again" []) =
  ([DoChannelMessageSendEmbed "C1" (userEmbed (Sample.direct Sample.bob "again" []));
    DoInsertOne (userEntry Sample.now (Sample.direct Sample.bob "again" []))],
   Some tt).
Proof.
  apply (created_ticket_is_found_again "G1" "CAT1" Sample.now Sample.rfc3339
           Sample.noUnicode Sample.undeliverable
           (Sample.direct Sample.bob "again" []) [] [] Sample.bobTicket);
    [discriminate | reflexivity | reflexivity | reflexivity | intros c []].
Defined.

Lemma reply_reaches_the_ticket_owner_witness :
  exists rest,
    trace (Sample.rev2 Sample.live (Sample.inChannel "C1" "on it" [])) =
    DoUserChannelCreate "123456789012345678" :: rest.
Proof.
  apply (reply_reaches_the_ticket_owner "G1" "CAT1" Sample.now Sample.rfc3339
           Sample.noUnicode Sample.live (Sample.inChannel "C1" "on it" [])
           Sample.bobTicket Sample.bob);
    [discriminate | discriminate | repeat split; reflexivity | reflexivity
    | discriminate | discriminate].
Defined.

Lemma direct_path_adds_only_acknowledgments_witness :
  filter (fun e => negb (isAck e))
    (trace (Sample.rev2 Sample.live (Sample.direct Sample.carol "hello" []))) =
  trace (Sample.rev1 Sample.live (Sample.direct Sample.carol "hello" [])).
Proof.
  apply (direct_path_adds_only_acknowledgments "G1" "CAT1" Sample.now
           Sample.rfc3339 Sample.noUnicode Sample.live
           (Sample.direct Sample.carol "hello" [])).
  reflexivity.
Defined.

Lemma health_endpoint_means_started_witness :
  In (ServeHealth ":10000") (fst (Rev2Main.main More.env More.ready)) /\
  Boot.discordOpen More.ready = None.
Proof.
  assert (Hin : In (ServeHealth ":10000") (fst (Rev2Main.main More.env More.ready)))
    by (simpl; do 4 right; left; reflexivity).
  split; [exact Hin |].
  apply (health_endpoint_means_started More.env More.ready ":10000" Hin).
Defined.

Lemma uncategorised_channels_are_ignored_witness :
  Rev2.messageCreate (More.env "STAFF_GUILD_ID") (More.env "CATEGORY_ID")
    Sample.now Sample.rfc3339 Sample.noUnicode More.flat
    (Sample.inChannel "C5" "!close" []) = ([], Some tt).
Proof.
  apply (uncategorised_channels_are_ignored More.env More.ready Sample.now
           Sample.rfc3339 Sample.noUnicode More.flat
           (Sample.inChannel "C5" "!close" []) More.general);
    [simpl; do 2 right; left; reflexivity | discriminate | reflexivity
    | reflexivity].
Defined.

Lemma reply_command_witness :
  More.rev0 More.desk (More.inLog "!reply 123456789012345678 we are on it") =
  [Rev0.DoUserChannelCreate "123456789012345678";
   Rev0.DoChannelMessageSend "DM-123456789012345678" "💬 **Staff:** we are on it";
   Rev0.DoInsertOne
     {| Rev0.UserID := "123456789012345678";
        Rev0.Username := "STAFF";
        Rev0.Content := "we are on it";
        Rev0.Timestamp := Sample.now;
        Rev0.Type_ := "reply" |};
   Rev0.DoChannelMessageSend "LOG" "✅ Reply sent."].
Proof.
  apply (reply_command "LOG" Sample.now More.desk
           (More.inLog "!reply 123456789012345678 we are on it")
           "123456789012345678" "we are on it");
    [discriminate | discriminate | reflexivity | reflexivity | reflexivity].
Defined.

Lemma reply_without_text_witness :
  More.rev0 More.desk (More.inLog "!reply 123456789012345678") =
  [Rev0.DoChannelMessageSend "LOG" "⚠️ Use: `!reply [UserID] [Message]`"].
Proof.
  apply (reply_without_text "LOG" Sample.now More.desk
           (More.inLog "!reply 123456789012345678") "123456789012345678");
    [discriminate | discriminate | reflexivity | reflexivity | reflexivity].
Defined.

Lemma other_guild_messages_ignored_witness :
  More.rev0 More.desk (More.inLog "!reply123 hello") = [].
Proof.
  apply (other_guild_messages_ignored "LOG" Sample.now More.desk
           (More.inLog "!reply123 hello"));
    [discriminate | right; reflexivity].
Defined.

Lemma direct_message_logged_then_relayed_witness :
  List.length (More.rev0 More.desk (Sample.direct Sample.bob "hello" [])) = 3.
Proof.
  unfold More.rev0.
  rewrite (direct_message_logged_then_relayed "LOG" Sample.now More.desk
             (Sample.direct Sample.bob "hello" []));
    [reflexivity | discriminate | reflexivity].
Defined.

Lemma log_entries_are_accounted_for_witness :
  exists userChannel sent,
    Rev0.UserChannelCreate More.desk "123456789012345678" = Some userChannel /\
    Rev0.ChannelMessageSend More.desk (Channel.ID userChannel)
      "💬 **Staff:** we are on it" = Some sent.
Proof.
  destruct (log_entries_are_accounted_for "LOG" Sample.now More.desk
              (More.inLog "!reply 123456789012345678 we are on it")
              {| Rev0.UserID := "123456789012345678";
                 Rev0.Username := "STAFF";
                 Rev0.Content := "we are on it";
                 Rev0.Timestamp := Sample.now;
                 Rev0.Type_ := "reply" |})
    as [[Hdm _] | (_ & _ & _ & _ & Hsent)].
  - simpl. do 2 right. left. reflexivity.
  - discriminate Hdm.
  - exact Hsent.
Defined.

(** ** The staff path, revision by revision *)
Section StaffPath.
Variables GuildID CategoryID : string.
Variable Now : Z.
Variable RFC3339 : Z -> string.
Variable unicodeToLower : string -> string.

Local Notation "'rev1'" :=
  (Rev1.messageCreate GuildID CategoryID Now unicodeToLower).
Local Notation "'rev2'" :=
  (Rev2.messageCreate GuildID CategoryID Now RFC3339 unicodeToLower).

(** X20. In the first revision a guild message has no effect unless
    [s.Channel] finds its channel, the channel belongs to the staff guild and
    its name starts with [ticket-]; the category of the channel is not
    consulted. *)
Theorem first_revision_gate (s : Session.t) (m : MessageCreate.t) :
  MessageCreate.GuildID m <> "" ->
  (Session.Channel s (MessageCreate.ChannelID m) = None \/
   exists ch,
     Session.Channel s (MessageCreate.ChannelID m) = Some ch /\
     (Channel.GuildID ch <> GuildID \/
      HasPrefix (Channel.Name ch) "ticket-" = false)) ->
  rev1 s m = ([], Some tt).
Proof.
  intros Hguild Hout. apply rev1_guild_rejected; [exact Hguild |].
  intros c (Hc & Hg & Hn).
  destruct Hout as [Hnone | (ch & Hch & [Hother | Hname])]; congruence.
Qed.

(** X21. In the first revision a staff reply that cannot be delivered leaves
    no trace for the staff: after the failed send the handler returns, with
    no notice in the ticket channel, no reaction and no log entry. *)
Theorem first_revision_failed_reply_is_silent (s : Session.t)
    (m : MessageCreate.t) (ch dm : Channel.t) :
  User.ID (MessageCreate.Author m) <> Session.StateUserID s ->
  MessageCreate.GuildID m <> "" ->
  guildTicketChannel GuildID s m ch ->
  topicUserID (Channel.Topic ch) <> "" ->
  ToLower unicodeToLower (MessageCreate.Content m) <> "!close" ->
  Session.UserChannelCreate s (topicUserID (Channel.Topic ch)) = Some dm ->
  Session.ChannelMessageSendEmbed s (Channel.ID dm) (staffEmbed m) = None ->
  rev1 s m =
  ([DoUserChannelCreate (topicUserID (Channel.Topic ch));
    DoChannelMessageSendEmbed (Channel.ID dm) (staffEmbed m)],
   Some tt).
Proof.
  intros Hbot Hguild Hticket Howner Hclose Hdm Hsent.
  exact (rev1_reply_failed _ _ _ _ _ _ ch Hbot Hguild Hticket Howner dm
           Hclose Hdm Hsent).
Qed.

(** X24. The handler opens a direct-message channel only for the owner a
    ticket topic names: the event is a non-bot guild message in a ticket
    channel, and the recipient is the non-empty identifier that follows the
    prefix in that channel's topic. *)
Theorem dm_only_to_the_topic_owner (s : Session.t) (m : MessageCreate.t)
    (recipientID : string) :
  In (DoUserChannelCreate recipientID) (trace (rev2 s m)) ->
  User.ID (MessageCreate.Author m) <> Session.StateUserID s /\
  MessageCreate.GuildID m <> "" /\
  recipientID <> "" /\
  exists ch,
    ticketChannel CategoryID s m ch /\
    Channel.Topic ch = "Modmail ID: " ++ recipientID.
Proof.
  intros Hin. remember (rev2 s m) as run eqn:Hrun.
  pose proof (rev2_paths GuildID CategoryID Now RFC3339 unicodeToLower s m)
    as Hpath.
  rewrite <- Hrun in Hpath.
  destruct Hpath; cbn [trace fst] in Hin; in_trace;
    try discriminate; try contradiction.
  all: injection Hin as <-; repeat split; try assumption;
    exists ch; split; [assumption | now apply topicUserID_inv].
Qed.
End StaffPath.

(** ** Start-up of the log-channel revision and shutdown *)

(** X22. The log-channel revision creates its gateway session only after the
    store has been connected and has answered the ping, with its three
    settings present; the session is authorised as ["Bot " + token]. *)
Theorem store_is_pinged_before_the_gateway (getenv : string -> string)
    (b : Boot.t) (authorization : string) :
  In (DiscordNew authorization) (fst (Rev0Main.main getenv b)) ->
  (getenv "DISCORD_TOKEN" <> "" /\ getenv "LOG_CHANNEL_ID" <> "" /\
   getenv "MONGO_URI" <> "") /\
  Boot.mongoConnect b = None /\
  Boot.mongoPing b = None /\
  authorization = "Bot " ++ getenv "DISCORD_TOKEN".
Proof.
  unfold Rev0Main.main.
  destruct (getenv "DISCORD_TOKEN" =? "") eqn:Ht; [intros [] |].
  destruct (getenv "LOG_CHANNEL_ID" =? "") eqn:Hl; [intros [] |].
  destruct (getenv "MONGO_URI" =? "") eqn:Hm; [intros [] |].
  apply String.eqb_neq in Ht, Hl, Hm. cbn [orb].
  destruct (Boot.mongoConnect b), (Boot.mongoPing b), (Boot.discordNew b),
    (Boot.discordOpen b);
    cbn [fst]; intros Hin;
    repeat (destruct Hin as [Hin | Hin]; [try discriminate Hin |]);
    try contradiction.
  all: injection Hin as <-; repeat split; assumption.
Qed.

(** X23. Only the log-channel revision closes the gateway: its [main] ends
    with the close, right after the signal, exactly when the start-up went
    through; the [main] of the two later revisions never closes it. *)
Theorem gateway_closed_only_by_the_log_channel_revision
    (getenv : string -> string) (b : Boot.t) :
  (In DiscordClose (fst (Rev0Main.main getenv b)) <->
   snd (Rev0Main.main getenv b) = Returned) /\
  (snd (Rev0Main.main getenv b) = Returned ->
   exists before,
     fst (Rev0Main.main getenv b) = (before ++ [AwaitSignal; DiscordClose])%list) /\
  ~ In DiscordClose (fst (Rev1Main.main getenv b)) /\
  ~ In DiscordClose (fst (Rev2Main.main getenv b)).
Proof.
  unfold Rev0Main.main, Rev1Main.main, Rev2Main.main.
  repeat split.
  - destruct ((getenv "DISCORD_TOKEN" =? "") || (getenv "LOG_CHANNEL_ID" =? "")
              || (getenv "MONGO_URI" =? "")); [intros [] |].
    destruct (Boot.mongoConnect b), (Boot.mongoPing b), (Boot.discordNew b),
      (Boot.discordOpen b); cbn [fst snd]; intros Hin; try reflexivity;
      repeat (destruct Hin as [Hin | Hin]; [discriminate Hin |]);
      contradiction.
  - destruct ((getenv "DISCORD_TOKEN" =? "") || (getenv "LOG_CHANNEL_ID" =? "")
              || (getenv "MONGO_URI" =? "")); [discriminate |].
    destruct (Boot.mongoConnect b), (Boot.mongoPing b), (Boot.discordNew b),
      (Boot.discordOpen b); cbn [fst snd]; intros H; try discriminate H.
    simpl. tauto.
  - destruct ((getenv "DISCORD_TOKEN" =? "") || (getenv "LOG_CHANNEL_ID" =? "")
              || (getenv "MONGO_URI" =? "")); [discriminate |].
    destruct (Boot.mongoConnect b), (Boot.mongoPing b), (Boot.discordNew b),
      (Boot.discordOpen b); cbn [fst snd]; intros H; try discriminate H.
    now eexists [_; _; _; _; _; _; _; _].
  - destruct ((getenv "DISCORD_TOKEN" =? "") || (getenv "STAFF_GUILD_ID" =? "")
              || (getenv "CATEGORY_ID" =? "") || (getenv "MONGO_URI" =? ""));
      [intros [] |].
    destruct (Boot.mongoConnect b), (Boot.discordNew b), (Boot.discordOpen b);
      cbn [fst]; intros Hin;
      repeat (destruct Hin as [Hin | Hin]; [discriminate Hin |]);
      contradiction.
  - destruct ((getenv "DISCORD_TOKEN" =? "") || (getenv "STAFF_GUILD_ID" =? "")
              || (getenv "CATEGORY_ID" =? "") || (getenv "MONGO_URI" =? ""));
      [intros [] |].
    destruct (Boot.mongoConnect b), (Boot.discordNew b), (Boot.discordOpen b);
      cbn [fst]; intros Hin;
      repeat (destruct Hin as [Hin | Hin]; [discriminate Hin |]);
      contradiction.
Qed.

Lemma first_revision_gate_witness :
  Sample.rev1 Sample.live
    (MessageCreate.mk "M4" "C7" "G1" Sample.moderator "hello" []) = ([], Some tt).
Proof.
  apply (first_revision_gate "G1" "CAT1" Sample.now Sample.noUnicode Sample.live
           (MessageCreate.mk "M4" "C7" "G1" Sample.moderator "hello" []));
    [discriminate | left; reflexivity].
Defined.

Lemma first_revision_failed_reply_is_silent_witness :
  Sample.rev1 Sample.undeliverable (Sample.inChannel "C1" "on it" []) =
  ([DoUserChannelCreate "123456789012345678";
    DoChannelMessageSendEmbed "DM-123456789012345678"
      (staffEmbed (Sample.inChannel "C1" "on it" []))],
   Some tt).
Proof.
  apply (first_revision_failed_reply_is_silent "G1" "CAT1" Sample.now
           Sample.noUnicode Sample.undeliverable
           (Sample.inChannel "C1" "on it" []) Sample.bobTicket
           (Channel.mk "DM-123456789012345678" "" "" "" ""));
    [discriminate | discriminate | repeat split; reflexivity | discriminate
    | discriminate | reflexivity | reflexivity].
Defined.

Lemma dm_only_to_the_topic_owner_witness :
  exists ch,
    ticketChannel "CAT1" Sample.live (Sample.inChannel "C1" "on it" []) ch /\
    Channel.Topic ch = "Modmail ID: 123456789012345678".
Proof.
  apply (dm_only_to_the_topic_owner "G1" "CAT1" Sample.now Sample.rfc3339
           Sample.noUnicode Sample.live (Sample.inChannel "C1" "on it" [])
           "123456789012345678").
  simpl. left. reflexivity.
Defined.

Lemma store_is_pinged_before_the_gateway_witness :
  Boot.mongoPing More.ready = None.
Proof.
  apply (store_is_pinged_before_the_gateway More.env0 More.ready "Bot token").
  simpl. do 3 right. left. reflexivity.
Defined.
